(** * Scan Tailor, page_split filter: [Task::process]

    A shallow embedding of [filters/page_split/Task.cpp].  The task reads
    the per-page rule, derives the dependencies of the split, consults the
    parameters stored for the page, re-runs the split finder when the
    stored layout cannot be reused, records the number of logical pages
    and hands over to the deskew task or to a [UiUpdater].

    The collaborators ([Settings], [PageSequence], [PageSplitFinder],
    [Dependencies], [PageLayout], ...) are declared in headers that are
    not part of the sources at hand; they enter as the fields of two
    interfaces, [ExternalTypes] and [ExternalOps]. *)

From stdpp Require Import base option list gmap.
From Stdlib Require Import ZArith Lia.

Open Scope Z_scope.

(** ** Enumerations of the page_split namespace *)

(** [AutoManualMode.h] *)
Inductive AutoManualMode : Type := MODE_AUTO | MODE_MANUAL.

(** [AutoDetectedLayout.h] *)
Inductive AutoDetectedLayout : Type := SINGLE_PAGE | TWO_PAGES.

(** [Rule.h]: only [Rule::layoutType()] is used by the task. *)
Module Rule.
Inductive LayoutType : Type := AUTO_DETECT | SINGLE_PAGE | TWO_PAGES.
Record t : Type := mk { layoutType : LayoutType }.
End Rule.

(** ** The collaborators' types *)

Class ExternalTypes : Type := {
  ImageId : Type;
  ImageId_eq_dec :: EqDecision ImageId;
  ImageId_countable :: Countable ImageId;
  QImage : Type;
  QSize : Type;
  Dpm : Type;
  OrthogonalRotation : Type;
  ImageTransformation : Type;
  BinaryThreshold : Type;
  DebugImages : Type;
  Filter : Type;
  Dependencies : Type;
  PageLayout : Type;
  (** what a result object built by a later stage holds *)
  LaterResult : Type;
  (** state owned by the later stages *)
  LaterState : Type
}.

(** [ImageMetadata(size, dpm)] *)
Record ImageMetadata `{ExternalTypes} : Type := {
  md_size : QSize;
  md_dpm : Dpm
}.

(** [FilterData]: [image()], [xform()], [bwThreshold()]. *)
Record FilterData `{ExternalTypes} : Type := {
  image : QImage;
  xform : ImageTransformation;
  bwThreshold : BinaryThreshold
}.

(** [Params(layout, deps, mode)] with its accessors [pageLayout()],
    [dependencies()], [mode()]. *)
Module Params.
Record t `{ExternalTypes} : Type := mk {
  pageLayout : PageLayout;
  dependencies : Dependencies;
  mode : AutoManualMode
}.
End Params.

(** ** The collaborators' operations *)

Class ExternalOps `{ExternalTypes} : Type := {
  (** [QImage::size()] and [Dpm(QImage const&)] *)
  image_size : QImage → QSize;
  image_dpm : QImage → Dpm;
  (** [ImageTransformation::preRotation()] *)
  preRotation : ImageTransformation → OrthogonalRotation;
  (** [PageLayout()], [PageLayout::isNull()], [PageLayout::numSubPages()] *)
  PageLayout_new : PageLayout;
  isNull : PageLayout → bool;
  numSubPages : PageLayout → Z;
  (** [Dependencies(image, pre_rotation, single_page)] and
      [Dependencies::matches(other, mode)] *)
  Dependencies_new : QImage → OrthogonalRotation → bool → Dependencies;
  matches : Dependencies → Dependencies → AutoManualMode → bool;
  (** [PageSequence::adviseNumberOfLogicalPages(metadata, pre_rotation)],
      a static function *)
  adviseNumberOfLogicalPages : ImageMetadata → OrthogonalRotation → Z;
  (** [PageSplitFinder::findSplitLine(image, pre_rotation, bw_threshold,
      single_page, dbg)]; the debug images it may add are returned next to
      the layout. *)
  findSplitLine :
    QImage → OrthogonalRotation → BinaryThreshold → bool →
    option DebugImages → PageLayout * option DebugImages
}.

(** ** [OptionsWidget::UiData] *)

(** Modelled from the spec: [OptionsWidget.h] is not part of the sources.
    The bundle holds the auto-detected layout class, the dependencies, the
    page layout and the mode; a field is [None] until its setter has been
    called on the object. *)
Record UiData `{ExternalTypes} : Type := {
  ui_autoDetectedLayout : option AutoDetectedLayout;
  ui_dependencies : option Dependencies;
  ui_pageLayout : option PageLayout;
  ui_mode : option AutoManualMode
}.

(** What a call yields: a value, or the Cancelled exception of
    [TaskStatus::throwIfCancelled]. *)
Inductive Outcome (A : Type) : Type :=
  | Returns (a : A)
  | Cancelled.
Arguments Returns {A} a.
Arguments Cancelled {A}.

Section PageSplit.
Context {Types : ExternalTypes} {Ops : ExternalOps}.

Definition UiData_new : UiData :=
  {| ui_autoDetectedLayout := None; ui_dependencies := None;
     ui_pageLayout := None; ui_mode := None |}.

Definition setAutoDetectedLayout (u : UiData) (l : AutoDetectedLayout) : UiData :=
  {| ui_autoDetectedLayout := Some l; ui_dependencies := ui_dependencies u;
     ui_pageLayout := ui_pageLayout u; ui_mode := ui_mode u |}.

Definition setDependencies (u : UiData) (d : Dependencies) : UiData :=
  {| ui_autoDetectedLayout := ui_autoDetectedLayout u; ui_dependencies := Some d;
     ui_pageLayout := ui_pageLayout u; ui_mode := ui_mode u |}.

Definition setPageLayout (u : UiData) (l : PageLayout) : UiData :=
  {| ui_autoDetectedLayout := ui_autoDetectedLayout u;
     ui_dependencies := ui_dependencies u;
     ui_pageLayout := Some l; ui_mode := ui_mode u |}.

Definition setMode (u : UiData) (m : AutoManualMode) : UiData :=
  {| ui_autoDetectedLayout := ui_autoDetectedLayout u;
     ui_dependencies := ui_dependencies u;
     ui_pageLayout := ui_pageLayout u; ui_mode := Some m |}.

(** ** [Task::UiUpdater] and [FilterResult] *)

(** The members [m_ptrFilter], [m_ptrDbg], [m_image], [m_xform] and
    [m_uiData] of [Task::UiUpdater]. *)
Record UiUpdater : Type := {
  u_ptrFilter : Filter;
  u_ptrDbg : option DebugImages;
  u_image : QImage;
  u_xform : ImageTransformation;
  u_uiData : UiData
}.

(** What a [FilterResultPtr] points to: this task's [UiUpdater], or a
    result object built by a later stage. *)
Inductive FilterResult : Type :=
  | OfUiUpdater (u : UiUpdater)
  | OfLaterStage (r : LaterResult).

(** ** The shared objects *)

(** Modelled from the spec: [Settings.h] is not part of the sources.
    [getRuleFor] looks the rule of a page up; the per-page parameter store
    maps a page to its stored [Params], absent when never computed. *)
Record Settings : Type := {
  rules : ImageId → Rule.t;
  pageParams : gmap ImageId Params.t
}.

(** Modelled from the spec: [PageSequence.h] is not part of the sources.
    The page-count table records the logical pages of each image. *)
Record PageSequence : Type := {
  logicalPages : gmap ImageId Z
}.

(** What the task and the later stages share: the objects behind
    [m_ptrSettings] and [m_ptrPageSequence], and the later stages' own
    state. *)
Record Shared : Type := {
  settings : Settings;
  pageSequence : PageSequence;
  later : LaterState
}.

(** The effect of [Settings::setPageParams(id, params)] on what is shared:
    the entry of the page is overwritten unconditionally. *)
Definition storeParams (id : ImageId) (p : Params.t) (s : Shared) : Shared :=
  {| settings :=
       {| rules := rules (settings s);
          pageParams := <[id := p]> (pageParams (settings s)) |};
     pageSequence := pageSequence s;
     later := later s |}.

(** The effect of [PageSequence::setLogicalPagesInImage(id, n)] on what is
    shared. *)
Definition recordLogicalPages (id : ImageId) (n : Z) (s : Shared) : Shared :=
  {| settings := settings s;
     pageSequence :=
       {| logicalPages := <[id := n]> (logicalPages (pageSequence s)) |};
     later := later s |}.

(** The calls [Task::process] makes on the shared objects, the split
    finder and the next task, and the result object it builds. *)
Inductive Event : Type :=
  | CallGetRuleFor (id : ImageId)
  | CallGetPageParams (id : ImageId)
  | CallFindSplitLine (img : QImage) (rot : OrthogonalRotation)
      (thr : BinaryThreshold) (single_page : bool) (dbg : option DebugImages)
  | CallSetPageParams (id : ImageId) (p : Params.t)
  | CallSetLogicalPagesInImage (id : ImageId) (n : Z)
  | CallNextProcess (data : FilterData) (layout : PageLayout)
  | NewUiUpdater (u : UiUpdater).

(** The world of an invocation: what is shared, and the calls made so
    far, oldest first. *)
Record World : Type := {
  shared : Shared;
  log : list Event
}.

(** The instant of a world: how many calls it has seen. *)
Definition now (w : World) : nat := length (log w).

(** The calls logged between [w] and a later world [w']. *)
Definition calls (w w' : World) : list Event := drop (now w) (log w').

Definition isFindSplitLine (e : Event) : bool :=
  match e with CallFindSplitLine _ _ _ _ _ => true | _ => false end.

Definition isSetPageParams (e : Event) : bool :=
  match e with CallSetPageParams _ _ => true | _ => false end.

Definition isSetLogicalPagesInImage (e : Event) : bool :=
  match e with CallSetLogicalPagesInImage _ _ => true | _ => false end.

Definition isNextProcess (e : Event) : bool :=
  match e with CallNextProcess _ _ => true | _ => false end.

Definition isNewUiUpdater (e : Event) : bool :=
  match e with NewUiUpdater _ => true | _ => false end.

(** How many of the calls [l] are of the kind [kind]. *)
Definition countCalls (kind : Event → bool) (l : list Event) : nat :=
  length (List.filter kind l).

(** ** Cancellation *)

(** Modelled from the spec: [TaskStatus.h] is not part of the sources.
    [throwIfCancelled] fails with Cancelled when the external flag has
    been set and is a no-op otherwise.  The flag is raised from outside
    the task; [cancelRequestedAt] is the instant at which that happens,
    [None] when it never does. *)
Record TaskStatus : Type := {
  cancelRequestedAt : option nat
}.

(** Whether the flag is up at instant [n]. *)
Definition isCancelledAt (status : TaskStatus) (n : nat) : bool :=
  match cancelRequestedAt status with
  | Some k => bool_decide (k ≤ n)%nat
  | None => false
  end.

Definition isCancelled (status : TaskStatus) (w : World) : bool :=
  isCancelledAt status (now w).

(** ** Computations that may be cancelled *)

Definition M (A : Type) : Type := World → Outcome A * World.

#[local] Instance M_ret : MRet M := λ A a w, (Returns a, w).

#[local] Instance M_bind : MBind M := λ A B f m w,
  match m w with
  | (Returns a, w') => f a w'
  | (Cancelled, w') => (Cancelled, w')
  end.

(** A call [e] that turns what is shared into [s]. *)
Definition logCall (e : Event) (s : Shared) (w : World) : World :=
  {| shared := s; log := log w ++ [e] |}.

Definition throwIfCancelled (status : TaskStatus) : M unit := λ w,
  if isCancelled status w then (Cancelled, w) else (Returns tt, w).

(** [Settings::getRuleFor(id)] *)
Definition getRuleFor (id : ImageId) : M Rule.t := λ w,
  (Returns (rules (settings (shared w)) id),
   logCall (CallGetRuleFor id) (shared w) w).

(** [Settings::getPageParams(id)] *)
Definition getPageParams (id : ImageId) : M (option Params.t) := λ w,
  (Returns (pageParams (settings (shared w)) !! id),
   logCall (CallGetPageParams id) (shared w) w).

(** [Settings::setPageParams(id, params)] *)
Definition setPageParams (id : ImageId) (p : Params.t) : M unit := λ w,
  (Returns tt, logCall (CallSetPageParams id p) (storeParams id p (shared w)) w).

(** [PageSequence::setLogicalPagesInImage(id, n)] *)
Definition setLogicalPagesInImage (id : ImageId) (n : Z) : M unit := λ w,
  (Returns tt,
   logCall (CallSetLogicalPagesInImage id n)
     (recordLogicalPages id n (shared w)) w).

Definition callFindSplitLine (img : QImage) (rot : OrthogonalRotation)
    (thr : BinaryThreshold) (single_page : bool) (dbg : option DebugImages)
    : M (PageLayout * option DebugImages) := λ w,
  (Returns (findSplitLine img rot thr single_page dbg),
   logCall (CallFindSplitLine img rot thr single_page dbg) (shared w) w).

(** ** The task *)

(** [deskew::Task::process(status, data, layout)], as far as this task can
    tell: it returns a result object or is cancelled, and may change what
    is shared. *)
Definition NextTask : Type :=
  TaskStatus → FilterData → PageLayout → Shared → Outcome FilterResult * Shared.

Definition callNextProcess (next : NextTask) (status : TaskStatus)
    (data : FilterData) (layout : PageLayout) : M FilterResult := λ w,
  let '(r, s) := next status data layout (shared w) in
  (r, logCall (CallNextProcess data layout) s w).

(** [new UiUpdater(filter, dbg, image, xform, ui_data)] *)
Definition newUiUpdater (filter : Filter) (dbg : option DebugImages)
    (img : QImage) (xf : ImageTransformation) (ui_data : UiData)
    : M FilterResult := λ w,
  let u := {| u_ptrFilter := filter; u_ptrDbg := dbg; u_image := img;
              u_xform := xf; u_uiData := ui_data |} in
  (Returns (OfUiUpdater u), logCall (NewUiUpdater u) (shared w) w).

(** The members of [Task]; [m_ptrSettings] and [m_ptrPageSequence] point
    to the shared objects of the world. *)
Record Task : Type := {
  m_ptrFilter : Filter;
  m_ptrNextTask : option NextTask;
  m_imageId : ImageId;
  m_ptrDbg : option DebugImages
}.

(** The [switch (rule.layoutType())] of [Task::process]: the value of
    [num_logical_pages] and the [ui_data] after it.  [num_logical_pages]
    is an [int]; the literals the last two cases assign to it are of type
    [bool] and are converted. *)
Definition resolveNumLogicalPages (rule : Rule.t) (data : FilterData)
    (pre_rotation : OrthogonalRotation) (ui_data : UiData) : Z * UiData :=
  let num_logical_pages := 1 in
  match Rule.layoutType rule with
  | Rule.AUTO_DETECT =>
      let metadata :=
        {| md_size := image_size (image data);
           md_dpm := image_dpm (image data) |} in
      let num_logical_pages :=
        adviseNumberOfLogicalPages metadata pre_rotation in
      let ui_data :=
        setAutoDetectedLayout ui_data
          (if num_logical_pages =? 1 then SINGLE_PAGE else TWO_PAGES) in
      (num_logical_pages, ui_data)
  | Rule.SINGLE_PAGE =>
      let num_logical_pages := Z.b2z true in
      (num_logical_pages, ui_data)
  | Rule.TWO_PAGES =>
      let num_logical_pages := Z.b2z false in
      (num_logical_pages, ui_data)
  end.

(** The [if (params.get())] of [Task::process]: the values of [layout] and
    [mode] after it. *)
Definition reuseStored (deps : Dependencies) (params : option Params.t)
    : PageLayout * AutoManualMode :=
  let layout := PageLayout_new in
  let mode := MODE_AUTO in
  match params with
  | Some p =>
      let mode := Params.mode p in
      if matches deps (Params.dependencies p) mode
      then (Params.pageLayout p, mode)
      else (layout, mode)
  | None => (layout, mode)
  end.

(** [Task::process(status, data)] *)
Definition process (task : Task) (status : TaskStatus) (data : FilterData)
    : M FilterResult :=
  throwIfCancelled status;;
  let pre_rotation := preRotation (xform data) in
  let ui_data := UiData_new in
  rule ← getRuleFor (m_imageId task);
  let '(num_logical_pages, ui_data) :=
    resolveNumLogicalPages rule data pre_rotation ui_data in
  let single_page := (num_logical_pages =? 1) in
  let deps := Dependencies_new (image data) pre_rotation single_page in
  let ui_data := setDependencies ui_data deps in
  params ← getPageParams (m_imageId task);
  let '(layout, mode) := reuseStored deps params in
  '(layout, dbg) ←
    (if isNull layout then
       '(layout, dbg) ←
         callFindSplitLine (image data) pre_rotation (bwThreshold data)
           single_page (m_ptrDbg task);
       let new_params :=
         {| Params.pageLayout := layout; Params.dependencies := deps;
            Params.mode := mode |} in
       setPageParams (m_imageId task) new_params;;
       throwIfCancelled status;;
       mret (layout, dbg)
     else mret (layout, m_ptrDbg task));
  let ui_data := setPageLayout ui_data layout in
  let ui_data := setMode ui_data mode in
  setLogicalPagesInImage (m_imageId task) (numSubPages layout);;
  match m_ptrNextTask task with
  | Some next => callNextProcess next status data layout
  | None =>
      newUiUpdater (m_ptrFilter task) dbg (image data) (xform data) ui_data
  end.

(** ** What an invocation works with *)

(** The rule and the stored parameters of the task's page in [w]. *)
Definition ruleFor (w : World) (task : Task) : Rule.t :=
  rules (settings (shared w)) (m_imageId task).

Definition storedParams (w : World) (task : Task) : option Params.t :=
  pageParams (settings (shared w)) !! m_imageId task.

(** The value of [single_page] in an invocation started in [w]. *)
Definition singlePage (w : World) (task : Task) (data : FilterData) : bool :=
  (resolveNumLogicalPages (ruleFor w task) data (preRotation (xform data))
     UiData_new).1 =? 1.

(** The dependencies derived from the inputs of the invocation: the value
    of [deps]. *)
Definition freshDependencies (w : World) (task : Task) (data : FilterData)
    : Dependencies :=
  Dependencies_new (image data) (preRotation (xform data))
    (singlePage w task data).

(** The layout and the mode after the lookup of the stored parameters. *)
Definition reused (w : World) (task : Task) (data : FilterData)
    : PageLayout * AutoManualMode :=
  reuseStored (freshDependencies w task data) (storedParams w task).

(** What the split finder answers on the inputs of the invocation. *)
Definition recomputed (w : World) (task : Task) (data : FilterData)
    : PageLayout * option DebugImages :=
  findSplitLine (image data) (preRotation (xform data)) (bwThreshold data)
    (singlePage w task data) (m_ptrDbg task).

(** The call of the split finder an invocation makes when it recomputes. *)
Definition findCall (w : World) (task : Task) (data : FilterData) : Event :=
  CallFindSplitLine (image data) (preRotation (xform data)) (bwThreshold data)
    (singlePage w task data) (m_ptrDbg task).

(** The parameters persisted after a recomputation. *)
Definition newParams (w : World) (task : Task) (data : FilterData) : Params.t :=
  {| Params.pageLayout := (recomputed w task data).1;
     Params.dependencies := freshDependencies w task data;
     Params.mode := (reused w task data).2 |}.

(** The layout carried forward: the reused one, or the recomputed one
    when the reused one is null. *)
Definition resolvedLayout (w : World) (task : Task) (data : FilterData)
    : PageLayout :=
  if isNull (reused w task data).1
  then (recomputed w task data).1
  else (reused w task data).1.

(** The [ui_data] handed to the [UiUpdater]. *)
Definition resolvedUiData (w : World) (task : Task) (data : FilterData)
    : UiData :=
  setMode
    (setPageLayout
       (setDependencies
          (resolveNumLogicalPages (ruleFor w task) data
             (preRotation (xform data)) UiData_new).2
          (freshDependencies w task data))
       (resolvedLayout w task data))
    (reused w task data).2.

(** The world after the two lookups of an invocation started in [w]. *)
Definition lookedUp (w : World) (task : Task) : World :=
  {| shared := shared w;
     log := log w ++ [CallGetRuleFor (m_imageId task);
                      CallGetPageParams (m_imageId task)] |}.

(** The world after the recomputation and the persist. *)
Definition persisted (w : World) (task : Task) (data : FilterData) : World :=
  {| shared := storeParams (m_imageId task) (newParams w task data) (shared w);
     log := log (lookedUp w task) ++
            [findCall w task data;
             CallSetPageParams (m_imageId task) (newParams w task data)] |}.

(** The world [w0] after the page count of [layout] has been recorded. *)
Definition counted (w0 : World) (task : Task) (layout : PageLayout) : World :=
  logCall (CallSetLogicalPagesInImage (m_imageId task) (numSubPages layout))
    (recordLogicalPages (m_imageId task) (numSubPages layout) (shared w0)) w0.

(** The debug images handed to the [UiUpdater]. *)
Definition resolvedDbg (w : World) (task : Task) (data : FilterData)
    : option DebugImages :=
  if isNull (reused w task data).1
  then (recomputed w task data).2
  else m_ptrDbg task.

(** The world in which the layout of the invocation has been resolved. *)
Definition decided (w : World) (task : Task) (data : FilterData) : World :=
  if isNull (reused w task data).1
  then persisted w task data
  else lookedUp w task.

(** The [UiUpdater] the task builds when it has no next task. *)
Definition builtUiUpdater (w : World) (task : Task) (data : FilterData)
    : UiUpdater :=
  {| u_ptrFilter := m_ptrFilter task;
     u_ptrDbg := resolvedDbg w task data;
     u_image := image data;
     u_xform := xform data;
     u_uiData := resolvedUiData w task data |}.

(** The call that ends an invocation that is not cancelled. *)
Definition handOverCall (w : World) (task : Task) (data : FilterData) : Event :=
  match m_ptrNextTask task with
  | Some _ => CallNextProcess data (resolvedLayout w task data)
  | None => NewUiUpdater (builtUiUpdater w task data)
  end.

(** The last two steps of [Task::process], from the world in which the
    layout has been resolved. *)
Definition handOver (w : World) (task : Task) (status : TaskStatus)
    (data : FilterData) : Outcome FilterResult * World :=
  let w2 := counted (decided w task data) task (resolvedLayout w task data) in
  match m_ptrNextTask task with
  | Some next =>
      callNextProcess next status data (resolvedLayout w task data) w2
  | None =>
      newUiUpdater (m_ptrFilter task) (resolvedDbg w task data) (image data)
        (xform data) (resolvedUiData w task data) w2
  end.

(** The checkpoints of the task let the invocation through: the one at
    entry and, when the split line is recomputed, the one after the
    persist. *)
Definition passesCheckpoints (task : Task) (status : TaskStatus)
    (data : FilterData) (w : World) : Prop :=
  isCancelled status w = false ∧
  (isNull (reused w task data).1 = true →
   isCancelled status (persisted w task data) = false).

(** The calls an invocation makes until its layout is resolved. *)
Definition decisionCalls (w : World) (task : Task) (data : FilterData)
    : list Event :=
  [CallGetRuleFor (m_imageId task); CallGetPageParams (m_imageId task)] ++
  (if isNull (reused w task data).1
   then [findCall w task data;
         CallSetPageParams (m_imageId task) (newParams w task data)]
   else []).

End PageSplit.

(** ** A small instance of the collaborators

    Pages are numbered; an image is its width in pixels; a layout is null
    or tells its number of sub-pages; the dependencies are the triple they
    are built from and match when equal. *)
Module Sample.

Definition types : ExternalTypes :=
  {| ImageId := nat; QImage := Z; QSize := Z; Dpm := Z;
     OrthogonalRotation := Z; ImageTransformation := Z;
     BinaryThreshold := Z; DebugImages := unit; Filter := unit;
     Dependencies := Z * Z * bool; PageLayout := option Z;
     LaterResult := unit; LaterState := unit |}.

#[local] Existing Instance types.

Definition ops : @ExternalOps types :=
  @Build_ExternalOps types
    (λ img : Z, img)
    (λ _ : Z, 300)
    (λ xf : Z, xf)
    (None : option Z)
    (λ l : option Z, match l with Some _ => false | None => true end)
    (λ l : option Z, default 0 l)
    (λ (img rot : Z) (single_page : bool), (img, rot, single_page))
    (λ (a b : Z * Z * bool) (_ : AutoManualMode), bool_decide (a = b))
    (λ (md : @ImageMetadata types) (_ : Z),
       if 2000 <? @md_size types md then 2 else 1)
    (λ (_ _ _ : Z) (single_page : bool) (dbg : option unit),
       (Some (if single_page then 1 else 2), dbg)).

#[local] Existing Instance ops.

Definition data : FilterData :=
  {| image := 1000; xform := 0; bwThreshold := 128 |}.

(** Every page is under the single-page rule. *)
Definition sharedWith (stored : gmap nat Params.t) : Shared :=
  {| settings :=
       {| rules := λ _, Rule.mk Rule.SINGLE_PAGE; pageParams := stored |};
     pageSequence := {| logicalPages := ∅ |};
     later := tt |}.

(** Nothing stored, nothing called yet. *)
Definition emptyWorld : World := {| shared := sharedWith ∅; log := [] |}.

(** Parameters set by hand, with the dependencies of [data] under the
    single-page rule. *)
Definition storedEntry (layout : option Z) : Params.t :=
  {| Params.pageLayout := layout;
     Params.dependencies := (1000, 0, true);
     Params.mode := MODE_MANUAL |}.

(** Page 0 has the stored parameters [storedEntry layout]. *)
Definition storedWorld (layout : option Z) : World :=
  {| shared := sharedWith {[ 0%nat := storedEntry layout ]}; log := [] |}.

(** A next task that answers without touching what is shared. *)
Definition nextTask : NextTask := λ _ _ _ s, (Returns (OfLaterStage tt), s).

(** The task of page 0, last of its pipeline or followed by [nextTask]. *)
Definition lastTask : Task :=
  {| m_ptrFilter := tt; m_ptrNextTask := None; m_imageId := 0%nat;
     m_ptrDbg := None |}.

Definition innerTask : Task :=
  {| m_ptrFilter := tt; m_ptrNextTask := Some nextTask; m_imageId := 0%nat;
     m_ptrDbg := None |}.

Definition neverCancelled : TaskStatus := {| cancelRequestedAt := None |}.

Definition cancelledAt (k : nat) : TaskStatus :=
  {| cancelRequestedAt := Some k |}.

(** An invocation on [data]. *)
Definition run (task : Task) (status : TaskStatus) (w : World)
    : Outcome FilterResult * World :=
  process task status data w.

End Sample.

(** ** The constructor of the task and the [UiUpdater]

    [Task::Task], [Task::UiUpdater::filter] and
    [Task::UiUpdater::updateUI].  The options widget of the filter and
    a fresh [DebugImages] come from headers that are not part of the
    sources; they are parameters. *)
Section PageSplitUi.
Context {Types : ExternalTypes} {Ops : ExternalOps}.

(** [OptionsWidget], and [Filter::optionsWidget()] *)
Variable OptionsWidget : Type.
Variable optionsWidget : Filter → OptionsWidget.

(** [new DebugImages] *)
Variable DebugImages_new : DebugImages.


(** [Task::UiUpdater::filter()] *)
Definition UiUpdater_filter (u : UiUpdater) : Filter := u_ptrFilter u.

(** Modelled from the spec: [OptionsWidget.h] is not part of the sources.
    [UiData::pageLayout()] reads the layout of the bundle, the
    default-constructed one when [setPageLayout] was never called. *)
Definition UiData_pageLayout (d : UiData) : PageLayout :=
  default PageLayout_new (ui_pageLayout d).

(** [new ImageView(image, xform, layout)] *)
Record ImageView : Type := {
  iv_image : QImage;
  iv_xform : ImageTransformation;
  iv_layout : PageLayout
}.

(** Modelled from the spec: [FilterUiInterface.h] is not part of the
    sources.  What [updateUI] does to the options widget and to the UI
    host, in the order in which it does it. *)
Inductive UiAction : Type :=
  | PostUpdateUI (opt_widget : OptionsWidget) (ui_data : UiData)
  | SetOptionsWidget (opt_widget : OptionsWidget)
  | SetImageWidget (view : ImageView) (dbg : option DebugImages)
  | ConnectManualPageLayoutSet (view : ImageView) (opt_widget : OptionsWidget).

(** [Task::UiUpdater::updateUI(ui)]; the host is what it has been asked to
    do so far. *)
Definition updateUI (u : UiUpdater) (ui : list UiAction) : list UiAction :=
  let opt_widget := optionsWidget (u_ptrFilter u) in
  let ui := ui ++ [PostUpdateUI opt_widget (u_uiData u)] in
  let ui := ui ++ [SetOptionsWidget opt_widget] in
  let view :=
    {| iv_image := u_image u; iv_xform := u_xform u;
       iv_layout := UiData_pageLayout (u_uiData u) |} in
  let ui := ui ++ [SetImageWidget view (u_ptrDbg u)] in
  ui ++ [ConnectManualPageLayoutSet view opt_widget].


End PageSplitUi.

(** ** An instance under the two-pages rule *)
Module TwoPagesSample.

#[local] Existing Instances Sample.types Sample.ops.


End TwoPagesSample.

(** ** An instance whose split finder finds nothing

    As [Sample], with a split finder that always answers the null
    layout. *)
Module BlindSample.

Definition ops : @ExternalOps Sample.types :=
  @Build_ExternalOps Sample.types
    (@image_size _ Sample.ops)
    (@image_dpm _ Sample.ops)
    (@preRotation _ Sample.ops)
    (@PageLayout_new _ Sample.ops)
    (@isNull _ Sample.ops)
    (@numSubPages _ Sample.ops)
    (@Dependencies_new _ Sample.ops)
    (@matches _ Sample.ops)
    (@adviseNumberOfLogicalPages _ Sample.ops)
    (λ (_ _ _ : Z) (_ : bool) (dbg : option unit), (None, dbg)).

End BlindSample.

(** * Properties of [Task::process] *)

Section PageSplitFacts.
Context {Types : ExternalTypes} {Ops : ExternalOps}.
Implicit Types (task : Task) (status : TaskStatus) (data : FilterData).
Implicit Types (w : World) (r : Outcome FilterResult).

(** ** The three ways through [process] *)

Lemma process_cancelled_at_entry task status data w :
  isCancelled status w = true →
  process task status data w = (Cancelled, w).
Proof.
  intros Hc. unfold process, mbind, M_bind, throwIfCancelled.
  by rewrite Hc.
Qed.

Ltac enter_process Hc :=
  unfold process, mbind, M_bind; unfold throwIfCancelled at 1; rewrite Hc;
  unfold getRuleFor, getPageParams; cbn [logCall shared log];
  unfold handOver, decided, resolvedUiData, resolvedLayout, resolvedDbg,
    persisted, newParams, findCall, recomputed;
  unfold reused, freshDependencies, singlePage, ruleFor, storedParams in *;
  destruct (resolveNumLogicalPages _ _ _ _) as [n ui]; cbn [fst snd] in *;
  destruct (reuseStored _ _) as [layout md]; cbn [fst snd] in *.

Lemma process_reuse task status data w :
  isCancelled status w = false →
  isNull (reused w task data).1 = false →
  process task status data w = handOver w task status data.
Proof.
  intros Hc Hn. enter_process Hc. rewrite Hn.
  unfold mret, M_ret, setLogicalPagesInImage, counted, lookedUp, logCall.
  cbn [shared log]. rewrite <- !app_assoc. by destruct (m_ptrNextTask task).
Qed.

Lemma process_recompute task status data w :
  isCancelled status w = false →
  isNull (reused w task data).1 = true →
  process task status data w =
    if isCancelled status (persisted w task data)
    then (Cancelled, persisted w task data)
    else handOver w task status data.
Proof.
  intros Hc Hn. enter_process Hc. rewrite Hn.
  unfold callFindSplitLine, setPageParams, lookedUp, logCall.
  cbn [shared log]. destruct (findSplitLine _ _ _ _ _) as [fresh dbg].
  cbn [fst snd shared log]. unfold throwIfCancelled, mret, M_ret.
  rewrite <- !app_assoc. cbn [app].
  clear Hc. destruct (isCancelled status _); [reflexivity|].
  unfold setLogicalPagesInImage, counted, logCall. cbn [shared log].
  by destruct (m_ptrNextTask task).
Qed.

(** Every invocation goes one of three ways. *)
Lemma process_cases task status data w r w' :
  process task status data w = (r, w') →
  (isCancelled status w = true ∧ r = Cancelled ∧ w' = w) ∨
  (isCancelled status w = false ∧ isNull (reused w task data).1 = true ∧
   isCancelled status (persisted w task data) = true ∧
   r = Cancelled ∧ w' = persisted w task data) ∨
  (passesCheckpoints task status data w ∧
   handOver w task status data = (r, w')).
Proof.
  intros Hp. destruct (isCancelled status w) eqn:Hc.
  - rewrite process_cancelled_at_entry in Hp by done. left.
    by injection Hp as <- <-.
  - right. destruct (isNull (reused w task data).1) eqn:Hn.
    + rewrite process_recompute in Hp by done.
      destruct (isCancelled status (persisted w task data)) eqn:Hc2.
      * left. by injection Hp as <- <-.
      * right. by repeat split.
    + rewrite process_reuse in Hp by done. right.
      repeat split; [done|congruence|done].
Qed.

Lemma process_passes task status data w :
  passesCheckpoints task status data w →
  process task status data w = handOver w task status data.
Proof.
  intros [Hc Hc2]. destruct (isNull (reused w task data).1) eqn:Hn.
  - rewrite process_recompute by done. by rewrite Hc2.
  - by apply process_reuse.
Qed.

(** ** The calls of an invocation *)

Lemma calls_app w w' evs : log w' = log w ++ evs → calls w w' = evs.
Proof. intros Hl. unfold calls, now. rewrite Hl. apply drop_app_length. Qed.

Lemma calls_same w : calls w w = [].
Proof. apply calls_app. by rewrite app_nil_r. Qed.

Lemma log_persisted w task data :
  log (persisted w task data) =
  log w ++ [CallGetRuleFor (m_imageId task); CallGetPageParams (m_imageId task);
            findCall w task data;
            CallSetPageParams (m_imageId task) (newParams w task data)].
Proof. unfold persisted, lookedUp. cbn [log]. by rewrite <- app_assoc. Qed.

Lemma now_persisted w task data :
  now (persisted w task data) = (now w + 4)%nat.
Proof. unfold now. rewrite log_persisted, length_app. reflexivity. Qed.

Lemma log_decided w task data :
  log (decided w task data) = log w ++ decisionCalls w task data.
Proof.
  unfold decided, decisionCalls. destruct (isNull _).
  - apply log_persisted.
  - by rewrite app_nil_r.
Qed.

Lemma handOver_log task status data w r w' :
  handOver w task status data = (r, w') →
  log w' =
  log w ++ decisionCalls w task data ++
    [CallSetLogicalPagesInImage (m_imageId task)
       (numSubPages (resolvedLayout w task data));
     handOverCall w task data].
Proof.
  unfold handOver, handOverCall, callNextProcess, newUiUpdater, counted,
    logCall.
  cbn [shared log]. rewrite log_decided.
  destruct (m_ptrNextTask task) as [next|].
  - destruct (next _ _ _ _) as [r0 s0]. intros ?; simplify_eq. cbn [log].
    by rewrite <- !app_assoc.
  - intros ?; simplify_eq. cbn [log]. by rewrite <- !app_assoc.
Qed.

Lemma handOver_calls task status data w r w' :
  handOver w task status data = (r, w') →
  calls w w' =
  decisionCalls w task data ++
    [CallSetLogicalPagesInImage (m_imageId task)
       (numSubPages (resolvedLayout w task data));
     handOverCall w task data].
Proof. intros Hh. apply calls_app. by eapply handOver_log. Qed.

Lemma handOver_next task status data w r w' next :
  m_ptrNextTask task = Some next →
  handOver w task status data = (r, w') →
  next status data (resolvedLayout w task data)
    (recordLogicalPages (m_imageId task)
       (numSubPages (resolvedLayout w task data))
       (shared (decided w task data))) = (r, shared w').
Proof.
  unfold handOver, callNextProcess, counted, logCall. intros ->.
  cbn [shared]. destruct (next _ _ _ _) as [r0 s0]. by intros ?; simplify_eq.
Qed.

Lemma handOver_last task status data w r w' :
  m_ptrNextTask task = None →
  handOver w task status data = (r, w') →
  r = Returns (OfUiUpdater (builtUiUpdater w task data)) ∧
  shared w' =
    recordLogicalPages (m_imageId task)
      (numSubPages (resolvedLayout w task data))
      (shared (decided w task data)).
Proof.
  unfold handOver, newUiUpdater, counted, logCall. intros ->.
  by intros ?; simplify_eq.
Qed.

(** ** The lookup of the stored parameters *)

Lemma reused_match task data w p :
  storedParams w task = Some p →
  matches (freshDependencies w task data) (Params.dependencies p)
    (Params.mode p) = true →
  reused w task data = (Params.pageLayout p, Params.mode p).
Proof. unfold reused, reuseStored. by intros -> ->. Qed.

Lemma reused_mismatch task data w p :
  storedParams w task = Some p →
  matches (freshDependencies w task data) (Params.dependencies p)
    (Params.mode p) = false →
  reused w task data = (PageLayout_new, Params.mode p).
Proof. unfold reused, reuseStored. by intros -> ->. Qed.

Lemma reused_absent task data w :
  storedParams w task = None →
  reused w task data = (PageLayout_new, MODE_AUTO).
Proof. unfold reused, reuseStored. by intros ->. Qed.

(** The mode after the lookup is the stored one, [MODE_AUTO] when nothing
    is stored, whether or not the dependencies match. *)
Lemma reused_mode task data w :
  (reused w task data).2 =
  match storedParams w task with
  | Some p => Params.mode p
  | None => MODE_AUTO
  end.
Proof.
  unfold reused, reuseStored. destruct (storedParams w task) as [p|]; [|done].
  by destruct (matches _ _ _).
Qed.

(** The persist leaves the rule of the page alone, so the dependencies
    derived right after it are the ones that were persisted. *)
Lemma freshDependencies_persisted task data w :
  freshDependencies (persisted w task data) task data =
  freshDependencies w task data.
Proof. reflexivity. Qed.

Lemma storedParams_persisted task data w :
  storedParams (persisted w task data) task = Some (newParams w task data).
Proof. unfold storedParams, persisted, storeParams. cbn. apply lookup_insert_eq. Qed.

Create HintDb calls.
#[local] Hint Unfold decisionCalls handOverCall countCalls : calls.

(** Evaluates the calls of an invocation that was handed over. *)
Ltac eval_calls Hh :=
  rewrite (handOver_calls _ _ _ _ _ _ Hh);
  autounfold with calls;
  repeat match goal with
         | H : isNull _ = _ |- _ => rewrite H
         | H : m_ptrNextTask _ = _ |- _ => rewrite H
         end;
  cbn [app List.filter length isFindSplitLine isSetPageParams
       isSetLogicalPagesInImage isNextProcess isNewUiUpdater].

(** Finds which of the calls of an explicit list the hypothesis [Hin] is
    about. *)
Ltac among_calls Hin :=
  first
    [ apply elem_of_nil in Hin; destruct Hin
    | let Heq := fresh "Heq" in
      apply elem_of_cons in Hin as [Heq|Hin];
      [ simplify_eq | among_calls Hin ] ].

(** Shows that a call is one of an explicit list. *)
Ltac one_of_calls :=
  repeat first [apply list_elem_of_here | apply list_elem_of_further].

(** ** Cancellation *)

(** C6: when cancellation has been requested before the checkpoint at the
    entry of [process], the invocation fails with Cancelled and leaves
    the world as it found it: nothing is stored, no page count is
    recorded, no call is made and no result object is built. *)
Theorem cancelled_at_entry_no_effect task status data w :
  isCancelled status w = true →
  process task status data w = (Cancelled, w) ∧ calls w w = [].
Proof.
  intros Hc. split; [by apply process_cancelled_at_entry | apply calls_same].
Qed.

(** Cancellation requested after the checkpoint at entry and before the
    one after the persist: the parameters are stored, then the invocation
    fails. *)
Lemma process_cancelled_after_persist task status data w k :
  isCancelled status w = false →
  isNull (reused w task data).1 = true →
  cancelRequestedAt status = Some k → (k ≤ now w + 4)%nat →
  process task status data w = (Cancelled, persisted w task data).
Proof.
  intros Hc Hn Hk Hle. rewrite process_recompute by done.
  unfold isCancelled, isCancelledAt. rewrite now_persisted, Hk.
  by rewrite bool_decide_eq_true_2.
Qed.

(** C1, amended: when the split line is recomputed and cancellation is
    requested after the checkpoint at entry and before the result is
    persisted (no later than the third call, the one of the split finder,
    returns), the invocation fails with Cancelled and the page-count
    table is left alone, but the parameters have been persisted: the
    checkpoint comes after [setPageParams]. *)
Theorem cancelled_after_recomputation task status data w k :
  isCancelled status w = false →
  isNull (reused w task data).1 = true →
  cancelRequestedAt status = Some k → (k ≤ now w + 3)%nat →
  ∃ w',
    process task status data w = (Cancelled, w') ∧
    calls w w' =
      [CallGetRuleFor (m_imageId task); CallGetPageParams (m_imageId task);
       findCall w task data;
       CallSetPageParams (m_imageId task) (newParams w task data)] ∧
    pageSequence (shared w') = pageSequence (shared w) ∧
    pageParams (settings (shared w')) =
      <[m_imageId task := newParams w task data]>
        (pageParams (settings (shared w))).
Proof.
  intros Hc Hn Hk Hle. exists (persisted w task data). split.
  - apply (process_cancelled_after_persist _ _ _ _ k); [done..|lia].
  - split; [|done]. apply calls_app, log_persisted.
Qed.

(** ** Reuse and recomputation *)

(** C2, amended: when parameters are stored for the page, their
    dependencies match the freshly derived ones under the stored mode and
    the stored layout is not null, the split finder is not called,
    nothing is written to the store, and the layout and the mode carried
    forward, to the next task or into the [UiUpdater], are the stored
    ones. *)
Theorem stored_layout_reused task status data w p r w' :
  storedParams w task = Some p →
  matches (freshDependencies w task data) (Params.dependencies p)
    (Params.mode p) = true →
  isNull (Params.pageLayout p) = false →
  process task status data w = (r, w') →
  countCalls isFindSplitLine (calls w w') = 0%nat ∧
  countCalls isSetPageParams (calls w w') = 0%nat ∧
  (∀ d l, CallNextProcess d l ∈ calls w w' → l = Params.pageLayout p) ∧
  (∀ u, NewUiUpdater u ∈ calls w w' →
        ui_pageLayout (u_uiData u) = Some (Params.pageLayout p) ∧
        ui_mode (u_uiData u) = Some (Params.mode p)) ∧
  (isCancelled status w = false →
   match m_ptrNextTask task with
   | Some next =>
       next status data (Params.pageLayout p)
         (recordLogicalPages (m_imageId task)
            (numSubPages (Params.pageLayout p)) (shared w)) = (r, shared w')
   | None =>
       ∃ u, r = Returns (OfUiUpdater u) ∧
            ui_pageLayout (u_uiData u) = Some (Params.pageLayout p) ∧
            ui_mode (u_uiData u) = Some (Params.mode p)
   end).
Proof.
  intros Hs Hm Hl Hp. pose proof (reused_match _ _ _ _ Hs Hm) as Hr.
  assert (isNull (reused w task data).1 = false) as Hn by by rewrite Hr.
  assert (resolvedLayout w task data = Params.pageLayout p) as Hres
    by (unfold resolvedLayout; by rewrite Hn, Hr).
  assert (decided w task data = lookedUp w task) as Hdec
    by (unfold decided; by rewrite Hn).
  destruct (process_cases _ _ _ _ _ _ Hp)
    as [(Hc & -> & ->)|[(_ & Hn' & _)|(_ & Hh)]]; [|congruence|].
  { rewrite calls_same. split_and!; [done|done|..|congruence].
    - by intros d l ?%elem_of_nil.
    - by intros u ?%elem_of_nil. }
  destruct (m_ptrNextTask task) as [next|] eqn:Hnext.
  - split_and!.
    + by eval_calls Hh.
    + by eval_calls Hh.
    + eval_calls Hh. intros d l Hin. among_calls Hin. done.
    + eval_calls Hh. intros u Hin. among_calls Hin.
    + intros _. pose proof (handOver_next _ _ _ _ _ _ _ Hnext Hh) as Hnx.
      by rewrite Hres, Hdec in Hnx.
  - split_and!.
    + by eval_calls Hh.
    + by eval_calls Hh.
    + eval_calls Hh. intros d l Hin. among_calls Hin.
    + eval_calls Hh. intros u Hin. among_calls Hin. cbn.
      by rewrite Hres, Hr.
    + intros _. destruct (handOver_last _ _ _ _ _ _ Hnext Hh) as [-> _].
      eexists. split; [done|]. cbn. by rewrite Hres, Hr.
Qed.

Lemma countCalls_app kind (l1 l2 : list Event) :
  countCalls kind (l1 ++ l2) = (countCalls kind l1 + countCalls kind l2)%nat.
Proof. unfold countCalls. by rewrite List.filter_app, length_app. Qed.

Lemma calls_persisted task data w :
  calls w (persisted w task data) =
  [CallGetRuleFor (m_imageId task); CallGetPageParams (m_imageId task);
   findCall w task data;
   CallSetPageParams (m_imageId task) (newParams w task data)].
Proof. apply calls_app, log_persisted. Qed.

(** What every invocation that gets past the entry and recomputes the
    split line has called, cancelled later or not. *)
Lemma recompute_calls task status data w r w' :
  isCancelled status w = false →
  isNull (reused w task data).1 = true →
  process task status data w = (r, w') →
  ∃ rest,
    calls w w' =
      [CallGetRuleFor (m_imageId task); CallGetPageParams (m_imageId task);
       findCall w task data;
       CallSetPageParams (m_imageId task) (newParams w task data)] ++ rest ∧
    countCalls isFindSplitLine rest = 0%nat ∧
    countCalls isSetPageParams rest = 0%nat ∧
    (∀ u, NewUiUpdater u ∈ rest → u = builtUiUpdater w task data).
Proof.
  intros Hc Hn Hp.
  destruct (process_cases _ _ _ _ _ _ Hp)
    as [(Hc' & _)|[(_ & _ & _ & -> & ->)|(_ & Hh)]]; [congruence|..].
  - exists []. rewrite calls_persisted, app_nil_r. split_and!; try done.
    by intros u ?%elem_of_nil.
  - eexists. split; [|split_and!].
    + rewrite (handOver_calls _ _ _ _ _ _ Hh). unfold decisionCalls.
      rewrite Hn. reflexivity.
    + unfold handOverCall. by destruct (m_ptrNextTask task).
    + unfold handOverCall. by destruct (m_ptrNextTask task).
    + intros u Hin. unfold handOverCall in Hin.
      destruct (m_ptrNextTask task); among_calls Hin. done.
Qed.

(** C3: when nothing is stored for the page, or the stored dependencies
    do not match the freshly derived ones, an invocation that gets past
    the checkpoint at entry calls the split finder exactly once and
    [setPageParams] exactly once, with the layout the finder answered and
    the dependencies of the invocation; these are the entry of the page
    right after the write, and deriving the dependencies again in that
    world gives the same value.  ([PageLayout()] is the null layout.) *)
Theorem recomputation_once task status data w r w' :
  isNull PageLayout_new = true →
  isCancelled status w = false →
  (storedParams w task = None ∨
   ∃ p, storedParams w task = Some p ∧
        matches (freshDependencies w task data) (Params.dependencies p)
          (Params.mode p) = false) →
  process task status data w = (r, w') →
  countCalls isFindSplitLine (calls w w') = 1%nat ∧
  countCalls isSetPageParams (calls w w') = 1%nat ∧
  findCall w task data ∈ calls w w' ∧
  CallSetPageParams (m_imageId task) (newParams w task data) ∈ calls w w' ∧
  Params.pageLayout (newParams w task data) =
    (findSplitLine (image data) (preRotation (xform data)) (bwThreshold data)
       (singlePage w task data) (m_ptrDbg task)).1 ∧
  storedParams (persisted w task data) task = Some (newParams w task data) ∧
  Params.dependencies (newParams w task data) =
    freshDependencies (persisted w task data) task data.
Proof.
  intros Hnew Hc Hs Hp.
  assert (isNull (reused w task data).1 = true) as Hn.
  { destruct Hs as [Hs|(p & Hs & Hm)].
    - by rewrite reused_absent.
    - by rewrite (reused_mismatch _ _ _ p). }
  destruct (recompute_calls _ _ _ _ _ _ Hc Hn Hp) as (rest & -> & Hf & Hw & _).
  rewrite !countCalls_app, Hf, Hw. split_and!; try done.
  - apply elem_of_app; left. one_of_calls.
  - apply elem_of_app; left. one_of_calls.
  - apply storedParams_persisted.
Qed.

(** C10: stored parameters whose dependencies match but whose layout is
    null are not reused: an invocation that gets past the checkpoint at
    entry calls the split finder, once, and overwrites the entry of the
    page with the recomputed parameters.  The entry is the recomputed one
    in the world the invocation leaves, when the task has no next task or
    is cancelled after the persist, and in what is handed to the next
    task otherwise. *)
Theorem null_stored_layout_recomputed task status data w p r w' :
  storedParams w task = Some p →
  matches (freshDependencies w task data) (Params.dependencies p)
    (Params.mode p) = true →
  isNull (Params.pageLayout p) = true →
  isCancelled status w = false →
  process task status data w = (r, w') →
  countCalls isFindSplitLine (calls w w') = 1%nat ∧
  findCall w task data ∈ calls w w' ∧
  countCalls isSetPageParams (calls w w') = 1%nat ∧
  CallSetPageParams (m_imageId task) (newParams w task data) ∈ calls w w' ∧
  storedParams (persisted w task data) task = Some (newParams w task data) ∧
  Params.pageLayout (newParams w task data) = (recomputed w task data).1 ∧
  match m_ptrNextTask task with
  | None => storedParams w' task = Some (newParams w task data)
  | Some next =>
      if isCancelled status (persisted w task data)
      then r = Cancelled ∧
           storedParams w' task = Some (newParams w task data)
      else ∃ s,
             next status data (recomputed w task data).1 s = (r, shared w') ∧
             pageParams (settings s) !! m_imageId task
               = Some (newParams w task data)
  end.
Proof.
  intros Hs Hm Hl Hc Hp.
  assert (isNull (reused w task data).1 = true) as Hn
    by by rewrite (reused_match _ _ _ p).
  assert (match m_ptrNextTask task with
          | None => storedParams w' task = Some (newParams w task data)
          | Some next =>
              if isCancelled status (persisted w task data)
              then r = Cancelled ∧
                   storedParams w' task = Some (newParams w task data)
              else ∃ s,
                     next status data (recomputed w task data).1 s
                       = (r, shared w') ∧
                     pageParams (settings s) !! m_imageId task
                       = Some (newParams w task data)
          end) as Hstore.
  { destruct (process_cases _ _ _ _ _ _ Hp)
      as [(Hc' & _)|[(_ & _ & Hc2 & -> & ->)|([_ Hc2] & Hh)]];
      [congruence|..].
    - rewrite Hc2. destruct (m_ptrNextTask task); [split; [done|]|];
        apply storedParams_persisted.
    - rewrite (Hc2 Hn).
      destruct (m_ptrNextTask task) as [next|] eqn:Hnext.
      + pose proof (handOver_next _ _ _ _ _ _ _ Hnext Hh) as Hcall.
        unfold resolvedLayout, decided in Hcall. rewrite Hn in Hcall.
        eexists. split; [exact Hcall|]. cbn. apply lookup_insert_eq.
      + destruct (handOver_last _ _ _ _ _ _ Hnext Hh) as [_ Hsh].
        unfold storedParams. rewrite Hsh. unfold decided. rewrite Hn. cbn.
        apply lookup_insert_eq. }
  destruct (recompute_calls _ _ _ _ _ _ Hc Hn Hp) as (rest & -> & Hf & Hw & _).
  rewrite !countCalls_app, Hf, Hw. split_and!; try done.
  - apply elem_of_app; left. one_of_calls.
  - apply elem_of_app; left. one_of_calls.
  - apply storedParams_persisted.
Qed.

(** C9: on the path that recomputes the split line, the mode written to
    the store and into the UI data is the mode that was stored for the
    page, matching dependencies or not, and [MODE_AUTO] when nothing was
    stored. *)
Theorem recomputation_keeps_mode task status data w r w' :
  isCancelled status w = false →
  isNull (reused w task data).1 = true →
  process task status data w = (r, w') →
  let kept :=
    match storedParams w task with
    | Some p => Params.mode p
    | None => MODE_AUTO
    end in
  (∃ p', CallSetPageParams (m_imageId task) p' ∈ calls w w' ∧
         storedParams (persisted w task data) task = Some p' ∧
         Params.mode p' = kept) ∧
  (∀ i p', CallSetPageParams i p' ∈ calls w w' → Params.mode p' = kept) ∧
  (∀ u, NewUiUpdater u ∈ calls w w' → ui_mode (u_uiData u) = Some kept) ∧
  (isCancelled status (persisted w task data) = false →
   m_ptrNextTask task = None →
   ∃ u, r = Returns (OfUiUpdater u) ∧ ui_mode (u_uiData u) = Some kept).
Proof.
  intros Hc Hn Hp kept.
  assert ((reused w task data).2 = kept) as Hk by apply reused_mode.
  destruct (recompute_calls _ _ _ _ _ _ Hc Hn Hp) as (rest & -> & Hf & Hw & Hu).
  split_and!.
  - exists (newParams w task data). split_and!; [|apply storedParams_persisted|done].
    apply elem_of_app; left. one_of_calls.
  - intros i p' Hin. apply elem_of_app in Hin as [Hin|Hin].
    + among_calls Hin. done.
    + exfalso. clear -Hin Hw. unfold countCalls in Hw.
      induction rest as [|e rest IH]; [by apply elem_of_nil in Hin|].
      apply elem_of_cons in Hin as [<-|Hin]; [done|].
      cbn in Hw. destruct (isSetPageParams e); [done|]. by apply IH.
  - intros u Hin. apply elem_of_app in Hin as [Hin|Hin]; [among_calls Hin|].
    rewrite (Hu u Hin). cbn. by rewrite Hk.
  - intros Hc2 Hnext. rewrite process_recompute, Hc2 in Hp by done.
    destruct (handOver_last _ _ _ _ _ _ Hnext Hp) as [-> _].
    eexists. split; [done|]. cbn. by rewrite Hk.
Qed.

(** ** The rule of the page *)

Lemma single_page_rule_resolves_to_one data rot ui :
  resolveNumLogicalPages (Rule.mk Rule.SINGLE_PAGE) data rot ui = (1, ui).
Proof. reflexivity. Qed.

Lemma auto_detect_rule_resolves_to_advice data rot ui :
  resolveNumLogicalPages (Rule.mk Rule.AUTO_DETECT) data rot ui =
  let advice :=
    adviseNumberOfLogicalPages
      {| md_size := image_size (image data);
         md_dpm := image_dpm (image data) |} rot in
  (advice,
   setAutoDetectedLayout ui (if advice =? 1 then SINGLE_PAGE else TWO_PAGES)).
Proof. reflexivity. Qed.


(** At the rule [TWO_PAGES] the switch leaves 0 in [num_logical_pages],
    the conversion of the literal [false], and not 2. *)
Lemma two_pages_rule_resolves_to_zero data rot ui :
  resolveNumLogicalPages (Rule.mk Rule.TWO_PAGES) data rot ui = (0, ui) ∧
  (resolveNumLogicalPages (Rule.mk Rule.TWO_PAGES) data rot ui).1 ≠ 2.
Proof. split; [reflexivity|]. cbn. lia. Qed.

(** ** The end of an invocation *)

(** C5: an invocation that its checkpoints let through, reusing the
    stored layout or recomputing it, calls [setLogicalPagesInImage]
    exactly once, for the page of the task and with the number of
    sub-pages of the layout it carries forward to the next task or into
    the [UiUpdater]. *)
Theorem page_count_recorded_once task status data w r w' :
  passesCheckpoints task status data w →
  process task status data w = (r, w') →
  countCalls isSetLogicalPagesInImage (calls w w') = 1%nat ∧
  CallSetLogicalPagesInImage (m_imageId task)
    (numSubPages (resolvedLayout w task data)) ∈ calls w w' ∧
  match m_ptrNextTask task with
  | Some _ => CallNextProcess data (resolvedLayout w task data) ∈ calls w w'
  | None =>
      ∃ u, r = Returns (OfUiUpdater u) ∧ NewUiUpdater u ∈ calls w w' ∧
           ui_pageLayout (u_uiData u) = Some (resolvedLayout w task data) ∧
           logicalPages (pageSequence (shared w')) !! m_imageId task =
             Some (numSubPages (resolvedLayout w task data))
  end.
Proof.
  intros Hpass Hp. rewrite process_passes in Hp by done.
  rewrite (handOver_calls _ _ _ _ _ _ Hp), !countCalls_app.
  split_and!.
  - unfold decisionCalls, handOverCall.
    by destruct (isNull _), (m_ptrNextTask task).
  - apply elem_of_app; right. one_of_calls.
  - unfold handOverCall. destruct (m_ptrNextTask task) as [next|] eqn:Hnext.
    + apply elem_of_app; right. one_of_calls.
    + destruct (handOver_last _ _ _ _ _ _ Hnext Hp) as [-> Hs].
      eexists. split_and!; [done| |done|].
      * apply elem_of_app; right. one_of_calls.
      * rewrite Hs. cbn. apply lookup_insert_eq.
Qed.

(** C7: an invocation that returns ends in exactly one of two ways.  With
    a next task, what [process] returns and leaves shared is what the
    next task returned and left when called on the resolved layout, and
    no [UiUpdater] is built; without one, exactly one [UiUpdater] is
    built and returned, and the layout in its UI data is the resolved
    one. *)
Theorem hand_over_exclusive task status data w res w' :
  process task status data w = (Returns res, w') →
  match m_ptrNextTask task with
  | Some next =>
      next status data (resolvedLayout w task data)
        (recordLogicalPages (m_imageId task)
           (numSubPages (resolvedLayout w task data))
           (shared (decided w task data))) = (Returns res, shared w') ∧
      countCalls isNextProcess (calls w w') = 1%nat ∧
      CallNextProcess data (resolvedLayout w task data) ∈ calls w w' ∧
      countCalls isNewUiUpdater (calls w w') = 0%nat
  | None =>
      ∃ u, res = OfUiUpdater u ∧
           countCalls isNewUiUpdater (calls w w') = 1%nat ∧
           NewUiUpdater u ∈ calls w w' ∧
           ui_pageLayout (u_uiData u) = Some (resolvedLayout w task data) ∧
           countCalls isNextProcess (calls w w') = 0%nat
  end.
Proof.
  intros Hp.
  destruct (process_cases _ _ _ _ _ _ Hp)
    as [(_ & ? & _)|[(_ & _ & _ & ? & _)|(_ & Hh)]]; [done..|].
  rewrite (handOver_calls _ _ _ _ _ _ Hh), !countCalls_app.
  unfold handOverCall, decisionCalls.
  destruct (m_ptrNextTask task) as [next|] eqn:Hnext.
  - split_and!.
    + by apply handOver_next.
    + by destruct (isNull _).
    + apply elem_of_app; right. one_of_calls.
    + by destruct (isNull _).
  - destruct (handOver_last _ _ _ _ _ _ Hnext Hh) as [[= ->] _].
    eexists. split_and!; [done| | |done|].
    + by destruct (isNull _).
    + apply elem_of_app; right. one_of_calls.
    + by destruct (isNull _).
Qed.

Lemma resolvedLayout_not_null task data w :
  (∀ img rot thr single_page dbg,
     isNull (findSplitLine img rot thr single_page dbg).1 = false) →
  isNull (resolvedLayout w task data) = false.
Proof.
  intros Hfind. unfold resolvedLayout.
  destruct (isNull (reused w task data).1) eqn:Hn; [apply Hfind|done].
Qed.

(** C8: when the split finder never answers a null layout, an invocation
    that returns never carries a null layout forward, neither to the next
    task nor into the [UiUpdater]; a layout that is null after the lookup
    of the stored parameters is recomputed before the page count is
    recorded and the invocation is handed over. *)
Theorem carried_layout_not_null task status data w res w' :
  (∀ img rot thr single_page dbg,
     isNull (findSplitLine img rot thr single_page dbg).1 = false) →
  process task status data w = (Returns res, w') →
  (∀ d l, CallNextProcess d l ∈ calls w w' → isNull l = false) ∧
  (∀ u, NewUiUpdater u ∈ calls w w' →
        ∃ l, ui_pageLayout (u_uiData u) = Some l ∧ isNull l = false) ∧
  match m_ptrNextTask task with
  | Some _ => ∃ l, CallNextProcess data l ∈ calls w w' ∧ isNull l = false
  | None =>
      ∃ u l, res = OfUiUpdater u ∧ ui_pageLayout (u_uiData u) = Some l ∧
             isNull l = false
  end ∧
  (isNull (reused w task data).1 = true →
   calls w w' =
     [CallGetRuleFor (m_imageId task); CallGetPageParams (m_imageId task);
      findCall w task data;
      CallSetPageParams (m_imageId task) (newParams w task data);
      CallSetLogicalPagesInImage (m_imageId task)
        (numSubPages (recomputed w task data).1);
      handOverCall w task data]).
Proof.
  intros Hfind Hp. pose proof (resolvedLayout_not_null task data w Hfind) as Hl.
  destruct (process_cases _ _ _ _ _ _ Hp)
    as [(_ & ? & _)|[(_ & _ & _ & ? & _)|(_ & Hh)]]; [done..|].
  rewrite (handOver_calls _ _ _ _ _ _ Hh). split_and!.
  - intros d l Hin. unfold decisionCalls, handOverCall in Hin.
    destruct (isNull (reused w task data).1), (m_ptrNextTask task);
      among_calls Hin; done.
  - intros u Hin. unfold decisionCalls, handOverCall in Hin.
    destruct (isNull (reused w task data).1), (m_ptrNextTask task);
      among_calls Hin; by eexists.
  - destruct (m_ptrNextTask task) as [next|] eqn:Hnext.
    + eexists. split; [|exact Hl]. unfold handOverCall. rewrite Hnext.
      apply elem_of_app; right. one_of_calls.
    + destruct (handOver_last _ _ _ _ _ _ Hnext Hh) as [[= ->] _].
      by do 2 eexists.
  - intros Hn. unfold decisionCalls, resolvedLayout. by rewrite Hn.
Qed.

End PageSplitFacts.

(** * Further properties of the task *)

Section PageSplitMoreFacts.
Context {Types : ExternalTypes} {Ops : ExternalOps}.
Implicit Types (task : Task) (status : TaskStatus) (data : FilterData).
Implicit Types (w : World) (r : Outcome FilterResult).

(** Finds which call of an explicit list the hypothesis [Hin] is about. *)
Ltac pick_call Hin :=
  first
    [ apply elem_of_nil in Hin; destruct Hin
    | let Heq := fresh "Heq" in
      apply elem_of_cons in Hin as [Heq|Hin];
      [ simplify_eq | pick_call Hin ] ].

(** ** What is shared when the layout has been resolved *)

Lemma shared_decided task data w :
  shared (decided w task data) =
  if isNull (reused w task data).1
  then storeParams (m_imageId task) (newParams w task data) (shared w)
  else shared w.
Proof. unfold decided. by destruct (isNull _). Qed.

(** A layout that is not null after the lookup is a stored one whose
    dependencies match. *)
Lemma reused_not_null_stored task data w :
  isNull PageLayout_new = true →
  isNull (reused w task data).1 = false →
  ∃ p, storedParams w task = Some p ∧
       matches (freshDependencies w task data) (Params.dependencies p)
         (Params.mode p) = true ∧
       reused w task data = (Params.pageLayout p, Params.mode p).
Proof.
  intros Hnew. unfold reused, reuseStored.
  destruct (storedParams w task) as [p|]; cbn; [|congruence].
  destruct (matches _ _ _) eqn:Hm; cbn; [|congruence]. intros _. by exists p.
Qed.

(** The entry of the page when the layout has been resolved: it holds the
    resolved layout and the mode that is carried forward. *)
Lemma decided_entry task data w :
  isNull PageLayout_new = true →
  ∃ p, pageParams (settings (shared (decided w task data))) !! m_imageId task
         = Some p ∧
       Params.pageLayout p = resolvedLayout w task data ∧
       Params.mode p = (reused w task data).2.
Proof.
  intros Hnew. rewrite shared_decided. unfold resolvedLayout.
  destruct (isNull (reused w task data).1) eqn:Hn.
  - exists (newParams w task data). split; [|done]. cbn.
    apply lookup_insert_eq.
  - destruct (reused_not_null_stored _ _ _ Hnew Hn) as (p & Hs & _ & Hr).
    exists p. by rewrite Hr.
Qed.

(** The value of [single_page], rule by rule. *)
Lemma singlePage_by_rule task data w :
  singlePage w task data =
  match Rule.layoutType (ruleFor w task) with
  | Rule.AUTO_DETECT =>
      adviseNumberOfLogicalPages
        {| md_size := image_size (image data);
           md_dpm := image_dpm (image data) |}
        (preRotation (xform data)) =? 1
  | Rule.SINGLE_PAGE => true
  | Rule.TWO_PAGES => false
  end.
Proof.
  unfold singlePage, resolveNumLogicalPages.
  by destruct (Rule.layoutType (ruleFor w task)).
Qed.

(** ** The order of the calls *)

(** X1: an invocation that its checkpoints let through looks the rule and
    the stored parameters up, recomputes and persists when the layout is
    null after the lookup, records the page count and hands over, in this
    order and with nothing else in between. *)
Theorem calls_in_order task status data w r w' :
  passesCheckpoints task status data w →
  process task status data w = (r, w') →
  calls w w' =
  [CallGetRuleFor (m_imageId task); CallGetPageParams (m_imageId task)] ++
  (if isNull (reused w task data).1
   then [CallFindSplitLine (image data) (preRotation (xform data))
           (bwThreshold data) (singlePage w task data) (m_ptrDbg task);
         CallSetPageParams (m_imageId task) (newParams w task data)]
   else []) ++
  [CallSetLogicalPagesInImage (m_imageId task)
     (numSubPages (resolvedLayout w task data));
   match m_ptrNextTask task with
   | Some _ => CallNextProcess data (resolvedLayout w task data)
   | None => NewUiUpdater (builtUiUpdater w task data)
   end].
Proof.
  intros Hpass Hp. rewrite process_passes in Hp by done.
  rewrite (handOver_calls _ _ _ _ _ _ Hp). unfold decisionCalls.
  by rewrite <- app_assoc.
Qed.

(** X2: every call of the split finder an invocation makes is on the
    image, the pre-rotation and the threshold of its data and on the debug
    sink of the task, and asks for a single page exactly when the rule of
    the page is [SINGLE_PAGE], or is [AUTO_DETECT] with an advice of 1. *)
Theorem split_finder_arguments task status data w r w'
    img rot thr single_page dbg :
  process task status data w = (r, w') →
  CallFindSplitLine img rot thr single_page dbg ∈ calls w w' →
  img = image data ∧ rot = preRotation (xform data) ∧
  thr = bwThreshold data ∧ dbg = m_ptrDbg task ∧
  single_page =
    match Rule.layoutType (ruleFor w task) with
    | Rule.AUTO_DETECT =>
        adviseNumberOfLogicalPages
          {| md_size := image_size (image data);
             md_dpm := image_dpm (image data) |}
          (preRotation (xform data)) =? 1
    | Rule.SINGLE_PAGE => true
    | Rule.TWO_PAGES => false
    end.
Proof.
  intros Hp Hin. rewrite <- singlePage_by_rule.
  destruct (process_cases _ _ _ _ _ _ Hp)
    as [(_ & -> & ->)|[(_ & _ & _ & -> & ->)|(_ & Hh)]].
  - rewrite calls_same in Hin. by apply elem_of_nil in Hin.
  - rewrite calls_persisted in Hin. unfold findCall in Hin. by pick_call Hin.
  - rewrite (handOver_calls _ _ _ _ _ _ Hh) in Hin.
    unfold decisionCalls, handOverCall, findCall in Hin.
    destruct (isNull _), (m_ptrNextTask task); by pick_call Hin.
Qed.


(** ** The last task of a pipeline *)

(** The three ends of an invocation of a task without a next task. *)
Lemma last_task_cases task status data w r w' :
  m_ptrNextTask task = None →
  process task status data w = (r, w') →
  (isCancelled status w = true ∧ r = Cancelled ∧ w' = w) ∨
  (isCancelled status w = false ∧ isNull (reused w task data).1 = true ∧
   isCancelled status (persisted w task data) = true ∧
   r = Cancelled ∧ w' = persisted w task data) ∨
  (passesCheckpoints task status data w ∧
   r = Returns (OfUiUpdater (builtUiUpdater w task data)) ∧
   calls w w' =
     decisionCalls w task data ++
     [CallSetLogicalPagesInImage (m_imageId task)
        (numSubPages (resolvedLayout w task data));
      NewUiUpdater (builtUiUpdater w task data)] ∧
   shared w' =
     recordLogicalPages (m_imageId task)
       (numSubPages (resolvedLayout w task data))
       (shared (decided w task data))).
Proof.
  intros Hnext Hp.
  destruct (process_cases _ _ _ _ _ _ Hp) as [?|[?|(Hpass & Hh)]];
    [by left | by right; left | right; right].
  destruct (handOver_last _ _ _ _ _ _ Hnext Hh) as [-> Hs].
  split_and!; [done..| |done].
  rewrite (handOver_calls _ _ _ _ _ _ Hh). unfold handOverCall.
  by rewrite Hnext.
Qed.

(** X3: a task without a next task that its checkpoints let through
    returns; cancellation requested after its last checkpoint, on the
    path that reuses the stored layout any time after the entry, is not
    noticed. *)
Theorem last_task_returns task status data w :
  m_ptrNextTask task = None →
  passesCheckpoints task status data w →
  ∃ u w', process task status data w = (Returns (OfUiUpdater u), w') ∧
          ui_pageLayout (u_uiData u) = Some (resolvedLayout w task data).
Proof.
  intros Hnext Hpass. rewrite process_passes by done.
  unfold handOver, newUiUpdater. rewrite Hnext. by do 2 eexists.
Qed.

(** X4: when a task without a next task is cancelled, no page count has
    been recorded and no [UiUpdater] has been built, the page-count table
    is as it was, and the flag is up in the world it leaves. *)
Theorem cancelled_last_task_records_nothing task status data w w' :
  m_ptrNextTask task = None →
  process task status data w = (Cancelled, w') →
  countCalls isSetLogicalPagesInImage (calls w w') = 0%nat ∧
  countCalls isNewUiUpdater (calls w w') = 0%nat ∧
  pageSequence (shared w') = pageSequence (shared w) ∧
  isCancelled status w' = true.
Proof.
  intros Hnext Hp.
  destruct (last_task_cases _ _ _ _ _ _ Hnext Hp)
    as [(Hc & _ & ->)|[(_ & _ & Hc & _ & ->)|(_ & ? & _)]]; [| |done].
  - by rewrite calls_same.
  - by rewrite calls_persisted.
Qed.

(** X5: an invocation of a task without a next task touches the entry and
    the page count of its own page only: the parameters and the page
    counts of the other pages, the rules and the state of the later
    stages are as before, however the invocation ends. *)
Theorem other_pages_untouched task status data w r w' j :
  m_ptrNextTask task = None →
  j ≠ m_imageId task →
  process task status data w = (r, w') →
  pageParams (settings (shared w')) !! j
    = pageParams (settings (shared w)) !! j ∧
  logicalPages (pageSequence (shared w')) !! j
    = logicalPages (pageSequence (shared w)) !! j ∧
  rules (settings (shared w')) = rules (settings (shared w)) ∧
  later (shared w') = later (shared w).
Proof.
  intros Hnext Hj Hp.
  destruct (last_task_cases _ _ _ _ _ _ Hnext Hp)
    as [(_ & _ & ->)|[(_ & _ & _ & _ & ->)|(_ & _ & _ & ->)]].
  - done.
  - cbn. by rewrite lookup_insert_ne.
  - rewrite shared_decided. destruct (isNull _); cbn;
      by rewrite ?lookup_insert_ne.
Qed.

(** X6: after an invocation of a task without a next task, however it
    ends, parameters that were stored for the page are still stored and
    have kept their mode: a mode set by hand is never reset. *)
Theorem stored_mode_is_kept task status data w r w' p :
  m_ptrNextTask task = None →
  storedParams w task = Some p →
  process task status data w = (r, w') →
  ∃ p', storedParams w' task = Some p' ∧ Params.mode p' = Params.mode p.
Proof.
  intros Hnext Hs Hp.
  assert ((reused w task data).2 = Params.mode p) as Hmode
    by by rewrite reused_mode, Hs.
  destruct (last_task_cases _ _ _ _ _ _ Hnext Hp)
    as [(_ & _ & ->)|[(_ & _ & _ & _ & ->)|(_ & _ & _ & Hsh)]].
  - by exists p.
  - exists (newParams w task data). by rewrite storedParams_persisted.
  - unfold storedParams in *. rewrite Hsh, shared_decided.
    destruct (isNull _); cbn.
    + exists (newParams w task data). by rewrite lookup_insert_eq.
    + by exists p.
Qed.

(** X7: when a task without a next task returns, the entry of its page
    holds the layout and the mode that are in the UI data of the result,
    and the page count recorded for the page is the number of sub-pages
    of that layout.  ([PageLayout()] is the null layout.) *)
Theorem store_agrees_with_result task status data w u w' :
  isNull PageLayout_new = true →
  m_ptrNextTask task = None →
  process task status data w = (Returns (OfUiUpdater u), w') →
  ∃ p', storedParams w' task = Some p' ∧
        ui_pageLayout (u_uiData u) = Some (Params.pageLayout p') ∧
        ui_mode (u_uiData u) = Some (Params.mode p') ∧
        logicalPages (pageSequence (shared w')) !! m_imageId task
          = Some (numSubPages (Params.pageLayout p')).
Proof.
  intros Hnew Hnext Hp.
  destruct (last_task_cases _ _ _ _ _ _ Hnext Hp)
    as [(_ & ? & _)|[(_ & _ & _ & ? & _)|(_ & [= ->] & _ & Hsh)]]; [done..|].
  destruct (decided_entry task data w Hnew) as (p & Hs & Hl & Hm).
  exists p. unfold storedParams. rewrite Hsh. cbn. split_and!.
  - done.
  - by rewrite Hl.
  - by rewrite Hm.
  - rewrite Hl. apply lookup_insert_eq.
Qed.

(** X8: the result of a task without a next task carries the filter of
    the task and the image and the transformation of the data; its UI
    data has the dependencies of the invocation, a layout and a mode, and
    an auto-detected layout under the rule [AUTO_DETECT] only, which is
    [SINGLE_PAGE] exactly when the advice is 1. *)
Theorem result_of_last_task task status data w u w' :
  m_ptrNextTask task = None →
  process task status data w = (Returns (OfUiUpdater u), w') →
  u_ptrFilter u = m_ptrFilter task ∧
  u_image u = image data ∧
  u_xform u = xform data ∧
  ui_dependencies (u_uiData u) = Some (freshDependencies w task data) ∧
  is_Some (ui_pageLayout (u_uiData u)) ∧
  is_Some (ui_mode (u_uiData u)) ∧
  ui_autoDetectedLayout (u_uiData u) =
    match Rule.layoutType (ruleFor w task) with
    | Rule.AUTO_DETECT =>
        Some (if adviseNumberOfLogicalPages
                   {| md_size := image_size (image data);
                      md_dpm := image_dpm (image data) |}
                   (preRotation (xform data)) =? 1
              then SINGLE_PAGE else TWO_PAGES)
    | _ => None
    end.
Proof.
  intros Hnext Hp.
  destruct (last_task_cases _ _ _ _ _ _ Hnext Hp)
    as [(_ & ? & _)|[(_ & _ & _ & ? & _)|(_ & [= ->] & _)]]; [done..|].
  cbn. split_and!; try done.
  unfold resolveNumLogicalPages. by destruct (Rule.layoutType _).
Qed.

(** ** Running the task again *)

(** What an invocation works with depends on the world through the rule
    and the stored parameters of the page only. *)
Lemma same_page_same_work task data w1 w2 :
  ruleFor w1 task = ruleFor w2 task →
  storedParams w1 task = storedParams w2 task →
  freshDependencies w1 task data = freshDependencies w2 task data ∧
  reused w1 task data = reused w2 task data ∧
  resolveNumLogicalPages (ruleFor w1 task) data (preRotation (xform data))
    UiData_new =
  resolveNumLogicalPages (ruleFor w2 task) data (preRotation (xform data))
    UiData_new.
Proof.
  intros Hr Hs. unfold reused, freshDependencies, singlePage.
  by rewrite Hr, Hs.
Qed.

(** X9: when a task without a next task has returned and is run again on
    the same data in the world it left, the second invocation reuses what
    the first one left in the store: it does not call the split finder,
    writes nothing, leaves what is shared as it is and returns the same UI
    data.  When the first invocation recomputed, this needs the
    dependencies to match themselves under the carried mode and the
    recomputed layout not to be null.  ([PageLayout()] is the null
    layout.) *)
Theorem second_run_reuses task status status2 data w u w' :
  isNull PageLayout_new = true →
  m_ptrNextTask task = None →
  (isNull (reused w task data).1 = true →
   matches (freshDependencies w task data) (freshDependencies w task data)
     (reused w task data).2 = true ∧
   isNull (recomputed w task data).1 = false) →
  process task status data w = (Returns (OfUiUpdater u), w') →
  isCancelled status2 w' = false →
  ∃ u2 w2,
    process task status2 data w' = (Returns (OfUiUpdater u2), w2) ∧
    u_uiData u2 = u_uiData u ∧
    countCalls isFindSplitLine (calls w' w2) = 0%nat ∧
    countCalls isSetPageParams (calls w' w2) = 0%nat ∧
    shared w2 = shared w'.
Proof.
  intros Hnew Hnext Hmiss Hp Hc2.
  destruct (last_task_cases _ _ _ _ _ _ Hnext Hp)
    as [(_ & ? & _)|[(_ & _ & _ & ? & _)|(_ & [= ->] & _ & Hsh)]]; [done..|].
  (* the entry the first invocation leaves *)
  assert (∃ p, storedParams w' task = Some p ∧
               matches (freshDependencies w task data)
                 (Params.dependencies p) (Params.mode p) = true ∧
               isNull (Params.pageLayout p) = false ∧
               Params.pageLayout p = resolvedLayout w task data ∧
               Params.mode p = (reused w task data).2)
    as (p & Hs' & Hm & Hl & Hpl & Hpm).
  { unfold storedParams, resolvedLayout. rewrite Hsh, shared_decided.
    destruct (isNull (reused w task data).1) eqn:Hn.
    - destruct (Hmiss eq_refl) as [Hrefl Hfind].
      exists (newParams w task data). cbn. by rewrite lookup_insert_eq.
    - destruct (reused_not_null_stored _ _ _ Hnew Hn) as (p & Hs & Hm & Hr).
      exists p. cbn. rewrite Hr. rewrite Hr in Hn. by split_and!. }
  assert (ruleFor w' task = ruleFor w task) as Hrule.
  { unfold ruleFor. rewrite Hsh, shared_decided.
    destruct (isNull (reused w task data).1); reflexivity. }
  assert (freshDependencies w' task data = freshDependencies w task data)
    as Hdeps by (unfold freshDependencies, singlePage; by rewrite Hrule).
  assert (reused w' task data = (Params.pageLayout p, Params.mode p)) as Hr'
    by (apply reused_match; [done | by rewrite Hdeps]).
  assert (isNull (reused w' task data).1 = false) as Hn' by by rewrite Hr'.
  assert (passesCheckpoints task status2 data w') as Hpass
    by (split; [done | congruence]).
  pose proof (process_passes _ _ _ _ Hpass) as Hp2.
  destruct (handOver w' task status2 data) as [r2 w2] eqn:Hh.
  destruct (last_task_cases _ _ _ _ _ _ Hnext Hp2)
    as [(? & _)|[(_ & ? & _)|(_ & -> & Hcalls & Hsh2)]]; [congruence..|].
  exists (builtUiUpdater w' task data), w2. split_and!.
  - done.
  - cbn. unfold resolvedUiData, resolvedLayout.
    rewrite Hn', Hr', Hdeps, Hrule, Hpm. cbn [fst snd].
    by rewrite Hpl.
  - rewrite Hcalls. unfold decisionCalls. by rewrite Hn'.
  - rewrite Hcalls. unfold decisionCalls. by rewrite Hn'.
  - rewrite Hsh2. unfold decided, resolvedLayout. rewrite Hn', Hr'. cbn.
    rewrite Hsh, Hpl. unfold recordLogicalPages. cbn.
    by rewrite insert_insert_eq.
Qed.

(** X13: what was persisted before a cancellation is not lost.  When an
    invocation is cancelled at the checkpoint after the persist, it leaves
    the world in which the recomputed parameters are stored, and a later
    invocation on the same data that gets past its entry reuses them: it
    does not call the split finder, writes nothing to the store and carries
    the layout that was recomputed before the cancellation forward.  This
    needs the dependencies to match themselves under the carried mode and
    the recomputed layout not to be null. *)
Theorem cancelled_work_is_reused task status status2 data w r2 w2 :
  isCancelled status w = false →
  isNull (reused w task data).1 = true →
  isCancelled status (persisted w task data) = true →
  matches (freshDependencies w task data) (freshDependencies w task data)
    (reused w task data).2 = true →
  isNull (recomputed w task data).1 = false →
  isCancelled status2 (persisted w task data) = false →
  process task status2 data (persisted w task data) = (r2, w2) →
  process task status data w = (Cancelled, persisted w task data) ∧
  countCalls isFindSplitLine (calls (persisted w task data) w2) = 0%nat ∧
  countCalls isSetPageParams (calls (persisted w task data) w2) = 0%nat ∧
  CallSetLogicalPagesInImage (m_imageId task)
    (numSubPages (recomputed w task data).1)
  ∈ calls (persisted w task data) w2 ∧
  match m_ptrNextTask task with
  | Some _ =>
      CallNextProcess data (recomputed w task data).1
      ∈ calls (persisted w task data) w2
  | None =>
      ∃ u, r2 = Returns (OfUiUpdater u) ∧
           ui_pageLayout (u_uiData u) = Some (recomputed w task data).1 ∧
           ui_mode (u_uiData u) = Some (reused w task data).2
  end.
Proof.
  intros Hc Hn Hc1 Hrefl Hfind Hc2 Hp2.
  split; [by rewrite process_recompute, Hc1|].
  set (w1 := persisted w task data) in *.
  assert (reused w1 task data =
          ((recomputed w task data).1, (reused w task data).2)) as Hr.
  { apply (reused_match task data w1 (newParams w task data)).
    - apply storedParams_persisted.
    - exact Hrefl. }
  assert (isNull (reused w1 task data).1 = false) as Hn1 by by rewrite Hr.
  assert (resolvedLayout w1 task data = (recomputed w task data).1) as Hl
    by (unfold resolvedLayout; by rewrite Hn1, Hr).
  rewrite process_reuse in Hp2 by done.
  rewrite (handOver_calls _ _ _ _ _ _ Hp2), !countCalls_app.
  unfold decisionCalls, handOverCall. rewrite Hn1, Hl. split_and!.
  - by destruct (m_ptrNextTask task).
  - by destruct (m_ptrNextTask task).
  - apply elem_of_app; right. apply list_elem_of_here.
  - destruct (m_ptrNextTask task) as [next|] eqn:Hnext.
    + apply elem_of_app; right.
      apply list_elem_of_further, list_elem_of_here.
    + destruct (handOver_last _ _ _ _ _ _ Hnext Hp2) as [-> _].
      eexists. split; [done|]. cbn. by rewrite Hl, Hr.
Qed.

(** X14: the split finder is trusted.  When it answers a null layout on
    the path that recomputes, an invocation that its checkpoints let
    through persists the null layout, records its number of sub-pages and
    hands it over all the same. *)
Theorem null_answer_is_carried task status data w r w' :
  passesCheckpoints task status data w →
  isNull (reused w task data).1 = true →
  isNull (recomputed w task data).1 = true →
  process task status data w = (r, w') →
  ∃ l, isNull l = true ∧
       l = (findSplitLine (image data) (preRotation (xform data))
              (bwThreshold data) (singlePage w task data) (m_ptrDbg task)).1 ∧
       CallSetPageParams (m_imageId task)
         {| Params.pageLayout := l;
            Params.dependencies := freshDependencies w task data;
            Params.mode := (reused w task data).2 |} ∈ calls w w' ∧
       CallSetLogicalPagesInImage (m_imageId task) (numSubPages l)
       ∈ calls w w' ∧
       match m_ptrNextTask task with
       | Some _ => CallNextProcess data l ∈ calls w w'
       | None =>
           ∃ u, r = Returns (OfUiUpdater u) ∧
                ui_pageLayout (u_uiData u) = Some l
       end.
Proof.
  intros Hpass Hn Hnull Hp. exists (recomputed w task data).1.
  assert (resolvedLayout w task data = (recomputed w task data).1) as Hl
    by (unfold resolvedLayout; by rewrite Hn).
  rewrite process_passes in Hp by done.
  rewrite (handOver_calls _ _ _ _ _ _ Hp).
  unfold decisionCalls, handOverCall. rewrite Hn, Hl. split_and!.
  - done.
  - done.
  - apply elem_of_app; left.
    do 3 apply list_elem_of_further. apply list_elem_of_here.
  - apply elem_of_app; right. apply list_elem_of_here.
  - destruct (m_ptrNextTask task) as [next|] eqn:Hnext.
    + apply elem_of_app; right.
      apply list_elem_of_further, list_elem_of_here.
    + destruct (handOver_last _ _ _ _ _ _ Hnext Hp) as [-> _].
      eexists. split; [done|]. cbn. by rewrite Hl.
Qed.

(** ** Handing over to the next task *)

(** X10: when the checkpoints let an invocation through, the next task is
    called once everything is in place: in what it is given, the entry of
    the page holds the layout it is called with, the page count of the
    page is the number of sub-pages of that layout, and the rules and the
    state of the later stages are untouched.  What it returns, Cancelled
    included, and what it leaves shared are the outcome of [process].
    ([PageLayout()] is the null layout.) *)
Theorem next_task_sees_committed_state task status data w r w' next :
  isNull PageLayout_new = true →
  m_ptrNextTask task = Some next →
  passesCheckpoints task status data w →
  process task status data w = (r, w') →
  ∃ s p,
    next status data (Params.pageLayout p) s = (r, shared w') ∧
    pageParams (settings s) !! m_imageId task = Some p ∧
    logicalPages (pageSequence s) !! m_imageId task
      = Some (numSubPages (Params.pageLayout p)) ∧
    rules (settings s) = rules (settings (shared w)) ∧
    later s = later (shared w) ∧
    CallNextProcess data (Params.pageLayout p) ∈ calls w w'.
Proof.
  intros Hnew Hnext Hpass Hp. rewrite process_passes in Hp by done.
  pose proof (handOver_next _ _ _ _ _ _ _ Hnext Hp) as Hcall.
  destruct (decided_entry task data w Hnew) as (p & Hs & Hl & _).
  eexists _, p. rewrite Hl. split_and!.
  - exact Hcall.
  - exact Hs.
  - cbn. apply lookup_insert_eq.
  - rewrite shared_decided. by destruct (isNull (reused w task data).1).
  - rewrite shared_decided. by destruct (isNull (reused w task data).1).
  - rewrite (handOver_calls _ _ _ _ _ _ Hp). unfold handOverCall.
    rewrite Hnext. apply elem_of_app; right.
    apply list_elem_of_further, list_elem_of_here.
Qed.

(** ** The constructor and [updateUI] *)

Section Ui.
Variable OptionsWidget : Type.
Variable optionsWidget : Filter → OptionsWidget.
Variable DebugImages_new : DebugImages.


(** X12: when a task without a next task returns and [updateUI] is called
    on its result, the options widget of the filter gets the UI data
    before it is installed, and the image view installed after it is built
    from the image and the transformation of the data and shows the
    resolved layout, the one whose number of sub-pages is the page count
    recorded for the page; the view is then connected to the options
    widget. *)
Theorem updateUI_shows_resolved_layout task status data w u w' ui :
  m_ptrNextTask task = None →
  process task status data w = (Returns (OfUiUpdater u), w') →
  ∃ view,
    updateUI OptionsWidget optionsWidget u ui =
      ui ++ [PostUpdateUI OptionsWidget
               (optionsWidget (UiUpdater_filter u)) (u_uiData u);
             SetOptionsWidget OptionsWidget
               (optionsWidget (UiUpdater_filter u));
             SetImageWidget OptionsWidget view (u_ptrDbg u);
             ConnectManualPageLayoutSet OptionsWidget view
               (optionsWidget (UiUpdater_filter u))] ∧
    UiUpdater_filter u = m_ptrFilter task ∧
    iv_image view = image data ∧
    iv_xform view = xform data ∧
    iv_layout view = resolvedLayout w task data ∧
    logicalPages (pageSequence (shared w')) !! m_imageId task
      = Some (numSubPages (iv_layout view)).
Proof.
  intros Hnext Hp.
  destruct (last_task_cases _ _ _ _ _ _ Hnext Hp)
    as [(_ & ? & _)|[(_ & _ & _ & ? & _)|(_ & [= ->] & _ & Hsh)]]; [done..|].
  eexists. split_and!.
  - unfold updateUI, UiUpdater_filter. by rewrite <- !app_assoc.
  - done.
  - done.
  - done.
  - done.
  - rewrite Hsh. cbn. apply lookup_insert_eq.
Qed.

End Ui.

End PageSplitMoreFacts.

(** * The properties on the sample instance *)

#[local] Existing Instances Sample.types Sample.ops.

Lemma cancelled_at_entry_no_effect_witness :
  process Sample.lastTask (Sample.cancelledAt 0) Sample.data Sample.emptyWorld
    = (Cancelled, Sample.emptyWorld) ∧
  calls Sample.emptyWorld Sample.emptyWorld = [].
Proof. apply cancelled_at_entry_no_effect. reflexivity. Defined.

Lemma cancelled_after_recomputation_witness :
  ∃ w',
    process Sample.lastTask (Sample.cancelledAt 3) Sample.data
      Sample.emptyWorld = (Cancelled, w') ∧
    calls Sample.emptyWorld w' =
      [CallGetRuleFor 0%nat; CallGetPageParams 0%nat;
       findCall Sample.emptyWorld Sample.lastTask Sample.data;
       CallSetPageParams 0%nat
         (newParams Sample.emptyWorld Sample.lastTask Sample.data)] ∧
    pageSequence (shared w') = pageSequence (shared Sample.emptyWorld) ∧
    pageParams (settings (shared w')) =
      <[0%nat := newParams Sample.emptyWorld Sample.lastTask Sample.data]>
        (pageParams (settings (shared Sample.emptyWorld))).
Proof.
  apply (cancelled_after_recomputation Sample.lastTask (Sample.cancelledAt 3)
           Sample.data Sample.emptyWorld 3%nat);
    [reflexivity | reflexivity | reflexivity | simpl; lia].
Defined.

(** C1 as stated fails: nothing is stored for page 0, cancellation is
    requested at instant 3, when the split finder has returned and
    [setPageParams] has not been called yet; the invocation fails with
    Cancelled, and the store has an entry for page 0 afterwards. *)
Lemma cancelled_recomputation_is_persisted :
  isCancelled (Sample.cancelledAt 3) Sample.emptyWorld = false ∧
  isNull (reused Sample.emptyWorld Sample.lastTask Sample.data).1 = true ∧
  (Sample.run Sample.lastTask (Sample.cancelledAt 3) Sample.emptyWorld).1
    = Cancelled ∧
  log (Sample.run Sample.lastTask (Sample.cancelledAt 3) Sample.emptyWorld).2
    !! 3%nat =
    Some (CallSetPageParams 0%nat
            {| Params.pageLayout := Some 1;
               Params.dependencies := (1000, 0, true);
               Params.mode := MODE_AUTO |}) ∧
  storedParams Sample.emptyWorld Sample.lastTask = None ∧
  storedParams
    (Sample.run Sample.lastTask (Sample.cancelledAt 3) Sample.emptyWorld).2
    Sample.lastTask =
    Some {| Params.pageLayout := Some 1;
            Params.dependencies := (1000, 0, true);
            Params.mode := MODE_AUTO |} ∧
  pageParams (settings (shared
    (Sample.run Sample.lastTask (Sample.cancelledAt 3) Sample.emptyWorld).2))
  ≠ pageParams (settings (shared Sample.emptyWorld)).
Proof.
  split_and!; try (vm_compute; reflexivity).
  intros Heq. apply (f_equal (λ m, m !! 0%nat)) in Heq.
  vm_compute in Heq. discriminate Heq.
Qed.

Lemma stored_layout_reused_witness :
  countCalls isFindSplitLine
    (calls (Sample.storedWorld (Some 2))
       (Sample.run Sample.lastTask Sample.neverCancelled
          (Sample.storedWorld (Some 2))).2) = 0%nat ∧
  countCalls isSetPageParams
    (calls (Sample.storedWorld (Some 2))
       (Sample.run Sample.lastTask Sample.neverCancelled
          (Sample.storedWorld (Some 2))).2) = 0%nat ∧
  ∃ u,
    (Sample.run Sample.lastTask Sample.neverCancelled
       (Sample.storedWorld (Some 2))).1 = Returns (OfUiUpdater u) ∧
    ui_pageLayout (u_uiData u) = Some (Some 2) ∧
    ui_mode (u_uiData u) = Some MODE_MANUAL.
Proof.
  edestruct (stored_layout_reused Sample.lastTask Sample.neverCancelled
               Sample.data (Sample.storedWorld (Some 2))
               (Sample.storedEntry (Some 2)))
    as (Hfind & Hset & _ & _ & Hlast);
    [reflexivity | reflexivity | reflexivity | apply surjective_pairing |].
  split; [exact Hfind|]. split; [exact Hset|]. exact (Hlast eq_refl).
Defined.

(** C2 as stated fails: the parameters stored for page 0 have the
    dependencies of the invocation and a null layout; the split finder is
    called, the store is written, and the layout handed to the
    [UiUpdater] is the recomputed one. *)
Lemma null_stored_layout_is_recomputed :
  storedParams (Sample.storedWorld None) Sample.lastTask =
    Some (Sample.storedEntry None) ∧
  matches
    (freshDependencies (Sample.storedWorld None) Sample.lastTask Sample.data)
    (Params.dependencies (Sample.storedEntry None))
    (Params.mode (Sample.storedEntry None)) = true ∧
  countCalls isFindSplitLine
    (calls (Sample.storedWorld None)
       (Sample.run Sample.lastTask Sample.neverCancelled
          (Sample.storedWorld None)).2) = 1%nat ∧
  countCalls isSetPageParams
    (calls (Sample.storedWorld None)
       (Sample.run Sample.lastTask Sample.neverCancelled
          (Sample.storedWorld None)).2) = 1%nat ∧
  (Sample.run Sample.lastTask Sample.neverCancelled
     (Sample.storedWorld None)).1 =
    Returns (OfUiUpdater
      {| u_ptrFilter := tt; u_ptrDbg := None; u_image := 1000; u_xform := 0;
         u_uiData :=
           {| ui_autoDetectedLayout := None;
              ui_dependencies := Some (1000, 0, true);
              ui_pageLayout := Some (Some 1);
              ui_mode := Some MODE_MANUAL |} |}) ∧
  Params.pageLayout (Sample.storedEntry None) ≠ Some 1.
Proof. split_and!; try (vm_compute; reflexivity). discriminate. Qed.

Lemma recomputation_once_witness :
  countCalls isFindSplitLine
    (calls Sample.emptyWorld
       (Sample.run Sample.lastTask Sample.neverCancelled
          Sample.emptyWorld).2) = 1%nat ∧
  countCalls isSetPageParams
    (calls Sample.emptyWorld
       (Sample.run Sample.lastTask Sample.neverCancelled
          Sample.emptyWorld).2) = 1%nat ∧
  CallSetPageParams 0%nat
    (newParams Sample.emptyWorld Sample.lastTask Sample.data)
  ∈ calls Sample.emptyWorld
      (Sample.run Sample.lastTask Sample.neverCancelled Sample.emptyWorld).2.
Proof.
  edestruct (recomputation_once Sample.lastTask Sample.neverCancelled
               Sample.data Sample.emptyWorld)
    as (Hfind & Hset & _ & Hin & _);
    [reflexivity | reflexivity | left; reflexivity
    | apply surjective_pairing |].
  split; [exact Hfind|]. split; [exact Hset | exact Hin].
Defined.

Lemma null_stored_layout_recomputed_witness :
  countCalls isFindSplitLine
    (calls (Sample.storedWorld None)
       (Sample.run Sample.innerTask Sample.neverCancelled
          (Sample.storedWorld None)).2) = 1%nat ∧
  storedParams
    (persisted (Sample.storedWorld None) Sample.innerTask Sample.data)
    Sample.innerTask =
    Some (newParams (Sample.storedWorld None) Sample.innerTask Sample.data) ∧
  ∃ s,
    Sample.nextTask Sample.neverCancelled Sample.data
      (recomputed (Sample.storedWorld None) Sample.innerTask Sample.data).1 s
      = ((Sample.run Sample.innerTask Sample.neverCancelled
            (Sample.storedWorld None)).1,
         shared (Sample.run Sample.innerTask Sample.neverCancelled
                   (Sample.storedWorld None)).2) ∧
    pageParams (settings s) !! 0%nat =
      Some (newParams (Sample.storedWorld None) Sample.innerTask Sample.data).
Proof.
  edestruct (null_stored_layout_recomputed Sample.innerTask
               Sample.neverCancelled Sample.data (Sample.storedWorld None)
               (Sample.storedEntry None))
    as (Hfind & _ & _ & _ & Hstored & _ & Hnext);
    [reflexivity | reflexivity | reflexivity | reflexivity
    | apply surjective_pairing |].
  split; [exact Hfind | split; [exact Hstored | exact Hnext]].
Defined.

Lemma recomputation_keeps_mode_witness :
  ∃ u,
    (Sample.run Sample.lastTask Sample.neverCancelled
       (Sample.storedWorld None)).1 = Returns (OfUiUpdater u) ∧
    ui_mode (u_uiData u) = Some MODE_MANUAL.
Proof.
  edestruct (recomputation_keeps_mode Sample.lastTask Sample.neverCancelled
               Sample.data (Sample.storedWorld None))
    as (_ & _ & _ & Hui);
    [reflexivity | reflexivity | apply surjective_pairing |].
  exact (Hui eq_refl eq_refl).
Defined.

Lemma page_count_recorded_once_witness :
  countCalls isSetLogicalPagesInImage
    (calls (Sample.storedWorld (Some 2))
       (Sample.run Sample.innerTask Sample.neverCancelled
          (Sample.storedWorld (Some 2))).2) = 1%nat ∧
  CallSetLogicalPagesInImage 0%nat 2
  ∈ calls (Sample.storedWorld (Some 2))
      (Sample.run Sample.innerTask Sample.neverCancelled
         (Sample.storedWorld (Some 2))).2.
Proof.
  edestruct (page_count_recorded_once Sample.innerTask Sample.neverCancelled
               Sample.data (Sample.storedWorld (Some 2)))
    as (Hcount & Hin & _);
    [split; [reflexivity | intros _; reflexivity]
    | apply surjective_pairing |].
  split; [exact Hcount | exact Hin].
Defined.

Lemma hand_over_exclusive_witness :
  Sample.nextTask Sample.neverCancelled Sample.data (Some 1)
    (recordLogicalPages 0%nat 1
       (shared (decided Sample.emptyWorld Sample.innerTask Sample.data))) =
    (Returns (OfLaterStage tt),
     shared (Sample.run Sample.innerTask Sample.neverCancelled
               Sample.emptyWorld).2) ∧
  countCalls isNewUiUpdater
    (calls Sample.emptyWorld
       (Sample.run Sample.innerTask Sample.neverCancelled
          Sample.emptyWorld).2) = 0%nat.
Proof.
  pose proof (hand_over_exclusive Sample.innerTask Sample.neverCancelled
                Sample.data Sample.emptyWorld (OfLaterStage tt)
                (Sample.run Sample.innerTask Sample.neverCancelled
                   Sample.emptyWorld).2 eq_refl)
    as (Hnext & _ & _ & Hnone).
  split; [exact Hnext | exact Hnone].
Defined.

Lemma carried_layout_not_null_witness :
  ∃ u l,
    OfUiUpdater (builtUiUpdater Sample.emptyWorld Sample.lastTask Sample.data)
      = OfUiUpdater u ∧
    ui_pageLayout (u_uiData u) = Some l ∧ isNull l = false.
Proof.
  edestruct (carried_layout_not_null Sample.lastTask Sample.neverCancelled
               Sample.data Sample.emptyWorld
               (OfUiUpdater
                  (builtUiUpdater Sample.emptyWorld Sample.lastTask
                     Sample.data))
               (Sample.run Sample.lastTask Sample.neverCancelled
                  Sample.emptyWorld).2)
    as (_ & _ & Hlast & _);
    [intros img rot thr single_page dbg; reflexivity | reflexivity |].
  exact Hlast.
Defined.

(** * The further properties on the sample instance *)

Lemma calls_in_order_witness :
  calls Sample.emptyWorld
    (Sample.run Sample.lastTask Sample.neverCancelled Sample.emptyWorld).2 =
  [CallGetRuleFor 0%nat; CallGetPageParams 0%nat;
   CallFindSplitLine 1000 0 128 true None;
   CallSetPageParams 0%nat
     (newParams Sample.emptyWorld Sample.lastTask Sample.data);
   CallSetLogicalPagesInImage 0%nat 1;
   NewUiUpdater (builtUiUpdater Sample.emptyWorld Sample.lastTask Sample.data)].
Proof.
  exact (calls_in_order Sample.lastTask Sample.neverCancelled Sample.data
           Sample.emptyWorld _ _ (conj eq_refl (λ _, eq_refl))
           (surjective_pairing _)).
Defined.

Lemma split_finder_arguments_witness :
  (1000 : Z) = image Sample.data ∧ (0 : Z) = preRotation (xform Sample.data) ∧
  (128 : Z) = bwThreshold Sample.data ∧
  (None : option unit) = m_ptrDbg Sample.lastTask ∧
  true = true.
Proof.
  apply (split_finder_arguments Sample.lastTask Sample.neverCancelled
           Sample.data Sample.emptyWorld
           (Sample.run Sample.lastTask Sample.neverCancelled
              Sample.emptyWorld).1
           (Sample.run Sample.lastTask Sample.neverCancelled
              Sample.emptyWorld).2
           1000 0 128 true None).
  - apply surjective_pairing.
  - vm_compute. apply list_elem_of_further, list_elem_of_further,
      list_elem_of_here.
Defined.

Lemma last_task_returns_witness :
  ∃ u w',
    process Sample.lastTask (Sample.cancelledAt 1) Sample.data
      (Sample.storedWorld (Some 2)) = (Returns (OfUiUpdater u), w') ∧
    ui_pageLayout (u_uiData u) = Some (Some 2).
Proof.
  assert (passesCheckpoints Sample.lastTask (Sample.cancelledAt 1)
            Sample.data (Sample.storedWorld (Some 2))) as Hpass
    by (split; [reflexivity | intros Hnull; vm_compute in Hnull; discriminate]).
  exact (last_task_returns Sample.lastTask (Sample.cancelledAt 1) Sample.data
           (Sample.storedWorld (Some 2)) eq_refl Hpass).
Defined.

Lemma cancelled_last_task_records_nothing_witness :
  countCalls isSetLogicalPagesInImage
    (calls Sample.emptyWorld
       (Sample.run Sample.lastTask (Sample.cancelledAt 3)
          Sample.emptyWorld).2) = 0%nat ∧
  pageSequence
    (shared (Sample.run Sample.lastTask (Sample.cancelledAt 3)
               Sample.emptyWorld).2) =
  pageSequence (shared Sample.emptyWorld).
Proof.
  assert (process Sample.lastTask (Sample.cancelledAt 3) Sample.data
            Sample.emptyWorld =
          (Cancelled,
           (Sample.run Sample.lastTask (Sample.cancelledAt 3)
              Sample.emptyWorld).2)) as Hrun
    by (vm_compute; reflexivity).
  destruct (cancelled_last_task_records_nothing Sample.lastTask
              (Sample.cancelledAt 3) Sample.data Sample.emptyWorld
              _ eq_refl Hrun)
    as (Hcount & _ & Hseq & _).
  split; [exact Hcount | exact Hseq].
Defined.

Lemma other_pages_untouched_witness :
  pageParams (settings (shared
    (Sample.run Sample.lastTask Sample.neverCancelled
       (Sample.storedWorld None)).2)) !! 7%nat =
  pageParams (settings (shared (Sample.storedWorld None))) !! 7%nat.
Proof.
  assert (7%nat ≠ m_imageId Sample.lastTask) as Hother by discriminate.
  destruct (other_pages_untouched Sample.lastTask Sample.neverCancelled
              Sample.data (Sample.storedWorld None) _ _ 7%nat eq_refl Hother
              (surjective_pairing _))
    as (Hstore & _).
  exact Hstore.
Defined.

Lemma stored_mode_is_kept_witness :
  ∃ p',
    storedParams
      (Sample.run Sample.lastTask Sample.neverCancelled
         (Sample.storedWorld None)).2 Sample.lastTask = Some p' ∧
    Params.mode p' = MODE_MANUAL.
Proof.
  exact (stored_mode_is_kept Sample.lastTask Sample.neverCancelled Sample.data
           (Sample.storedWorld None) _ _ (Sample.storedEntry None)
           eq_refl eq_refl (surjective_pairing _)).
Defined.

Lemma store_agrees_with_result_witness :
  ∃ p',
    storedParams
      (Sample.run Sample.lastTask Sample.neverCancelled Sample.emptyWorld).2
      Sample.lastTask = Some p' ∧
    ui_pageLayout
      (u_uiData (builtUiUpdater Sample.emptyWorld Sample.lastTask Sample.data))
      = Some (Params.pageLayout p') ∧
    ui_mode
      (u_uiData (builtUiUpdater Sample.emptyWorld Sample.lastTask Sample.data))
      = Some (Params.mode p') ∧
    logicalPages (pageSequence (shared
      (Sample.run Sample.lastTask Sample.neverCancelled
         Sample.emptyWorld).2)) !! 0%nat
      = Some (numSubPages (Params.pageLayout p')).
Proof.
  assert (process Sample.lastTask Sample.neverCancelled Sample.data
            Sample.emptyWorld =
          (Returns
             (OfUiUpdater
                (builtUiUpdater Sample.emptyWorld Sample.lastTask
                   Sample.data)),
           (Sample.run Sample.lastTask Sample.neverCancelled
              Sample.emptyWorld).2)) as Hrun
    by (vm_compute; reflexivity).
  exact (store_agrees_with_result Sample.lastTask Sample.neverCancelled
           Sample.data Sample.emptyWorld _ _ eq_refl eq_refl Hrun).
Defined.

Lemma result_of_last_task_witness :
  ui_dependencies
    (u_uiData (builtUiUpdater Sample.emptyWorld Sample.lastTask Sample.data))
    = Some (1000, 0, true) ∧
  ui_autoDetectedLayout
    (u_uiData (builtUiUpdater Sample.emptyWorld Sample.lastTask Sample.data))
    = None.
Proof.
  assert (process Sample.lastTask Sample.neverCancelled Sample.data
            Sample.emptyWorld =
          (Returns
             (OfUiUpdater
                (builtUiUpdater Sample.emptyWorld Sample.lastTask
                   Sample.data)),
           (Sample.run Sample.lastTask Sample.neverCancelled
              Sample.emptyWorld).2)) as Hrun
    by (vm_compute; reflexivity).
  destruct (result_of_last_task Sample.lastTask Sample.neverCancelled
              Sample.data Sample.emptyWorld _ _ eq_refl Hrun)
    as (_ & _ & _ & Hdeps & _ & _ & Hauto).
  split; [exact Hdeps | exact Hauto].
Defined.

Lemma second_run_reuses_witness :
  ∃ u2 w2,
    process Sample.lastTask Sample.neverCancelled Sample.data
      (Sample.run Sample.lastTask Sample.neverCancelled Sample.emptyWorld).2
      = (Returns (OfUiUpdater u2), w2) ∧
    u_uiData u2 =
      u_uiData (builtUiUpdater Sample.emptyWorld Sample.lastTask Sample.data) ∧
    countCalls isFindSplitLine
      (calls (Sample.run Sample.lastTask Sample.neverCancelled
                Sample.emptyWorld).2 w2) = 0%nat ∧
    countCalls isSetPageParams
      (calls (Sample.run Sample.lastTask Sample.neverCancelled
                Sample.emptyWorld).2 w2) = 0%nat ∧
    shared w2 =
      shared (Sample.run Sample.lastTask Sample.neverCancelled
                Sample.emptyWorld).2.
Proof.
  assert (process Sample.lastTask Sample.neverCancelled Sample.data
            Sample.emptyWorld =
          (Returns
             (OfUiUpdater
                (builtUiUpdater Sample.emptyWorld Sample.lastTask
                   Sample.data)),
           (Sample.run Sample.lastTask Sample.neverCancelled
              Sample.emptyWorld).2)) as Hrun
    by (vm_compute; reflexivity).
  exact (second_run_reuses Sample.lastTask Sample.neverCancelled
           Sample.neverCancelled Sample.data Sample.emptyWorld _ _
           eq_refl eq_refl (λ _, conj eq_refl eq_refl) Hrun eq_refl).
Defined.

Lemma next_task_sees_committed_state_witness :
  ∃ s p,
    Sample.nextTask Sample.neverCancelled Sample.data (Params.pageLayout p) s
      = ((Sample.run Sample.innerTask Sample.neverCancelled
            Sample.emptyWorld).1,
         shared (Sample.run Sample.innerTask Sample.neverCancelled
                   Sample.emptyWorld).2) ∧
    pageParams (settings s) !! 0%nat = Some p ∧
    logicalPages (pageSequence s) !! 0%nat
      = Some (numSubPages (Params.pageLayout p)) ∧
    rules (settings s) = rules (settings (shared Sample.emptyWorld)) ∧
    later s = later (shared Sample.emptyWorld) ∧
    CallNextProcess Sample.data (Params.pageLayout p)
    ∈ calls Sample.emptyWorld
        (Sample.run Sample.innerTask Sample.neverCancelled
           Sample.emptyWorld).2.
Proof.
  exact (next_task_sees_committed_state Sample.innerTask
           Sample.neverCancelled Sample.data Sample.emptyWorld _ _
           Sample.nextTask eq_refl eq_refl (conj eq_refl (λ _, eq_refl))
           (surjective_pairing _)).
Defined.


Lemma updateUI_shows_resolved_layout_witness :
  ∃ view,
    updateUI unit (λ _, tt)
      (builtUiUpdater Sample.emptyWorld Sample.lastTask Sample.data) [] =
      [PostUpdateUI unit tt
         (u_uiData
            (builtUiUpdater Sample.emptyWorld Sample.lastTask Sample.data));
       SetOptionsWidget unit tt;
       SetImageWidget unit view None;
       ConnectManualPageLayoutSet unit view tt] ∧
    UiUpdater_filter
      (builtUiUpdater Sample.emptyWorld Sample.lastTask Sample.data) = tt ∧
    iv_image view = 1000 ∧
    iv_xform view = 0 ∧
    iv_layout view = Some 1 ∧
    logicalPages (pageSequence (shared
      (Sample.run Sample.lastTask Sample.neverCancelled
         Sample.emptyWorld).2)) !! 0%nat
      = Some (numSubPages (iv_layout view)).
Proof.
  assert (process Sample.lastTask Sample.neverCancelled Sample.data
            Sample.emptyWorld =
          (Returns
             (OfUiUpdater
                (builtUiUpdater Sample.emptyWorld Sample.lastTask
                   Sample.data)),
           (Sample.run Sample.lastTask Sample.neverCancelled
              Sample.emptyWorld).2)) as Hrun
    by (vm_compute; reflexivity).
  exact (updateUI_shows_resolved_layout unit (λ _, tt) Sample.lastTask
           Sample.neverCancelled Sample.data Sample.emptyWorld _ _ []
           eq_refl Hrun).
Defined.

Lemma cancelled_work_is_reused_witness :
  countCalls isFindSplitLine
    (calls (persisted Sample.emptyWorld Sample.lastTask Sample.data)
       (Sample.run Sample.lastTask (Sample.cancelledAt 9)
          (persisted Sample.emptyWorld Sample.lastTask Sample.data)).2)
    = 0%nat ∧
  ∃ u,
    (Sample.run Sample.lastTask (Sample.cancelledAt 9)
       (persisted Sample.emptyWorld Sample.lastTask Sample.data)).1
      = Returns (OfUiUpdater u) ∧
    ui_pageLayout (u_uiData u) = Some (Some 1) ∧
    ui_mode (u_uiData u) = Some MODE_AUTO.
Proof.
  edestruct (cancelled_work_is_reused Sample.lastTask (Sample.cancelledAt 3)
               (Sample.cancelledAt 9) Sample.data Sample.emptyWorld
               (Sample.run Sample.lastTask (Sample.cancelledAt 9)
                  (persisted Sample.emptyWorld Sample.lastTask Sample.data)).1
               (Sample.run Sample.lastTask (Sample.cancelledAt 9)
                  (persisted Sample.emptyWorld Sample.lastTask Sample.data)).2)
    as (_ & Hfind & _ & _ & Hlast);
    [reflexivity | reflexivity | reflexivity | reflexivity | reflexivity
    | reflexivity | apply surjective_pairing |].
  split; [exact Hfind | exact Hlast].
Defined.

Lemma null_answer_is_carried_witness :
  ∃ l : option Z,
    @isNull _ BlindSample.ops l = true ∧
    l = None ∧
    CallSetPageParams 0%nat
      {| Params.pageLayout := l;
         Params.dependencies := (1000, 0, true);
         Params.mode := MODE_AUTO |}
    ∈ calls Sample.emptyWorld
        (@process _ BlindSample.ops Sample.lastTask Sample.neverCancelled
           Sample.data Sample.emptyWorld).2 ∧
    CallSetLogicalPagesInImage 0%nat (@numSubPages _ BlindSample.ops l)
    ∈ calls Sample.emptyWorld
        (@process _ BlindSample.ops Sample.lastTask Sample.neverCancelled
           Sample.data Sample.emptyWorld).2 ∧
    ∃ u,
      (@process _ BlindSample.ops Sample.lastTask Sample.neverCancelled
         Sample.data Sample.emptyWorld).1 = Returns (OfUiUpdater u) ∧
      ui_pageLayout (u_uiData u) = Some l.
Proof.
  assert (@passesCheckpoints _ BlindSample.ops Sample.lastTask
            Sample.neverCancelled Sample.data Sample.emptyWorld) as Hpass
    by (split; [reflexivity | intros _; reflexivity]).
  exact (@null_answer_is_carried _ BlindSample.ops Sample.lastTask
           Sample.neverCancelled Sample.data Sample.emptyWorld _ _
           Hpass eq_refl eq_refl (surjective_pairing _)).
Defined.


